(** * glassdoor_scraper.py: a shallow embedding and its checked properties

    The scraper drives a remote browser through Selenium.  The browser, the
    site and the clock are the environment: every Selenium call is a [Call]
    answered by an instance of [WebDriver], and the program is written in a
    state-and-exception monad over a [Session] (the environment, the calls
    made so far, and the output file).  Messages printed on the terminal are
    not modelled; [verbose] only governs such messages. *)

From Stdlib Require Import List String Ascii ZArith NArith Lia Bool PeanoNat.
Import ListNotations.
Local Open Scope string_scope.
Local Open Scope list_scope.

Set Implicit Arguments.

(** ** Python values *)

(** Characters are [ascii], read as the code points below 256. *)
Definition isspace (c : ascii) : bool :=
  let n := nat_of_ascii c in
  (Nat.leb 9 n && Nat.leb n 13) || (Nat.leb 28 n && Nat.leb n 32)
  || Nat.eqb n 133 || Nat.eqb n 160.

Fixpoint lstrip (s : string) : string :=
  match s with
  | EmptyString => EmptyString
  | String c r => if isspace c then lstrip r else s
  end.

Fixpoint rstrip (s : string) : string :=
  match s with
  | EmptyString => EmptyString
  | String c r =>
      match rstrip r with
      | EmptyString => if isspace c then EmptyString else String c EmptyString
      | r' => String c r'
      end
  end.

(** [str.strip()] *)
Definition strip (s : string) : string := rstrip (lstrip s).

(** truth value of a [str] *)
Definition truthy (s : string) : bool :=
  match s with EmptyString => false | _ => true end.

(** [s.startswith((p1, p2, ...))] *)
Definition startswith (s : string) (prefixes : list string) : bool :=
  existsb (fun p => String.prefix p s) prefixes.

(** [len(l)] as a Python integer *)
Definition len {A} (l : list A) : Z := Z.of_nat (List.length l).

(** The exceptions the program can meet; all of them derive from
    [Exception], so [except Exception] and a bare [except] catch each one. *)
Inductive exn : Type :=
| TimeoutException
| NoSuchElementException
| ElementClickInterceptedException
| StaleElementReferenceException
| WebDriverException
| OSError
| AttributeError.

Definition is_TimeoutException (e : exn) : bool :=
  match e with TimeoutException => true | _ => false end.

Definition is_NoSuchElementException (e : exn) : bool :=
  match e with NoSuchElementException => true | _ => false end.

Inductive Outcome (A : Type) : Type :=
| Ok (a : A)
| Raise (e : exn).
Arguments Ok {A} a.
Arguments Raise {A} e.

(** ** The browser interface *)

Inductive By : Type := XPATH | CSS_SELECTOR.

Definition WebElement := nat.

Inductive pyval : Type :=
| PyList (l : list string)
| PyBool (b : bool).

(** [selenium.webdriver.chrome.options.Options] *)
Record Options : Type := mkOptions {
  arguments : list string;
  experimental_options : list (string * pyval);
  binary_location : option string
}.

(** One call into the environment, indexed by the type of its answer.
    [FindElement None] searches the whole page ([driver.find_element]),
    [FindElement (Some e)] below the element [e]. *)
Inductive Call : Type -> Type :=
| Getcwd : Call string
| InstallChromeDriver : Call string
| Chrome (service : option string) (options : Options) : Call unit
| ExecuteCdpCmd (cmd : string) (params : list (string * string)) : Call unit
| ExecuteScript (script : string) (args : list WebElement) : Call unit
| Get (url : string) : Call unit
| FindElement (base : option WebElement) (by_ : By) (value : string) : Call WebElement
| FindElements (by_ : By) (value : string) : Call (list WebElement)
| UntilPresence (timeout : N) (by_ : By) (value : string) : Call WebElement
| Click (element : WebElement) : Call unit
| Text (element : WebElement) : Call string
| IsEnabled (element : WebElement) : Call bool
| IsDisplayed (element : WebElement) : Call bool
| GetAttribute (element : WebElement) (name : string) : Call (option string).

(** What the program did to the environment, in order.  [Slept] is
    [time.sleep], in milliseconds. *)
Inductive Event : Type :=
| Called {A : Type} (c : Call A)
| Slept (ms : N).

Class WebDriver (W : Type) : Type := {
  respond : forall A, Call A -> W -> Outcome A * W;
  elapse : N -> W -> W
}.

(** A table as [DataFrame.to_csv(..., index=False)] leaves it on disk: the
    header first, then one row per record; [None] is an empty cell. *)
Definition Table := list (list (option string)).

Record Session (W : Type) : Type := mkSession {
  world : W;
  trace : list Event;
  glassdoor_jobs_csv : option Table
}.

Definition M (W A : Type) : Type := Session W -> Outcome A * Session W.

Definition ret {W A} (a : A) : M W A := fun s => (Ok a, s).

Definition bind {W A B} (m : M W A) (k : A -> M W B) : M W B :=
  fun s => match m s with
           | (Ok a, s') => k a s'
           | (Raise e, s') => (Raise e, s')
           end.

Definition raise {W A} (e : exn) : M W A := fun s => (Raise e, s).

(** [try: m  except <those e with catches e = true>: handler] *)
Definition try_except {W A} (m : M W A) (catches : exn -> bool) (handler : M W A) : M W A :=
  fun s => match m s with
           | (Ok a, s') => (Ok a, s')
           | (Raise e, s') => if catches e then handler s' else (Raise e, s')
           end.

Definition any_exception (e : exn) : bool := true.

Declare Scope py_scope.
Delimit Scope py_scope with py.
Notation "x <- m ;; k" := (bind m (fun x => k))
  (at level 100, m at next level, right associativity) : py_scope.
Notation "m ;; k" := (bind m (fun _ => k))
  (at level 100, right associativity) : py_scope.
Local Open Scope py_scope.

Section Program.
Context {W : Type} {driver : WebDriver W}.

Definition perform {A} (c : Call A) : M W A :=
  fun s => let (r, w) := respond c (world s) in
           (r, mkSession w (trace s ++ [Called c]) (glassdoor_jobs_csv s)).

Definition sleep (ms : N) : M W unit :=
  fun s => (Ok tt, mkSession (elapse ms (world s)) (trace s ++ [Slept ms]) (glassdoor_jobs_csv s)).

(** ** safe_find (lines 37-53) *)

(** The parameter [selectors_list] is a [str] or a list of them. *)
Inductive str_or_list : Type :=
| Str (s : string)
| Lst (l : list string).

(** lines 44-47 *)
Definition find_by_selector (base_element : WebElement) (selector : string) : M W WebElement :=
  if startswith selector ["//"; ".//"]
  then perform (FindElement (Some base_element) XPATH selector)
  else perform (FindElement (Some base_element) CSS_SELECTOR selector).

(** lines 44-50, the body of the [try]: [Some text] is [return text],
    [None] is leaving the [try] at its end. *)
Definition safe_find_try (base_element : WebElement) (selector : string) : M W (option string) :=
  element <- find_by_selector base_element selector ;;
  raw <- perform (Text element) ;;
  let text := strip raw in
  if truthy text then ret (Some text) else ret None.

(** lines 42-53 *)
Fixpoint safe_find_for (base_element : WebElement) (selectors_list : list string)
  (default : string) : M W string :=
  match selectors_list with
  | [] => ret default
  | selector :: rest =>
      r <- try_except (safe_find_try base_element selector) any_exception (ret None) ;;
      match r with
      | Some text => ret text
      | None => safe_find_for base_element rest default
      end
  end.

Definition safe_find (base_element : WebElement) (selectors_list : str_or_list)
  (default : string) : M W string :=
  let selectors_list :=
    match selectors_list with Str s => [s] | Lst l => l end in
  safe_find_for base_element selectors_list default.

(** ** close_any_modal (lines 55-74) *)

Definition close_selectors : list string :=
  [ "button[data-test='close-modal']";
    "button[aria-label='Close']";
    "button.CloseButton";
    "svg[data-test='close-icon']";
    "span[aria-label='Close']" ].

(** lines 67-70, the body of the inner [try], which ends in [return] *)
Definition close_try (selector : string) : M W unit :=
  close_btn <- perform (FindElement None CSS_SELECTOR selector) ;;
  perform (Click close_btn) ;;
  sleep 1000.

(** lines 65-72: [true] from the [try] is its [return], [false] the [pass]
    of the handler *)
Fixpoint close_any_modal_for (selectors : list string) : M W unit :=
  match selectors with
  | [] => ret tt
  | selector :: rest =>
      returned <- try_except (close_try selector ;; ret true) any_exception (ret false) ;;
      if returned then ret tt else close_any_modal_for rest
  end.

Definition close_any_modal : M W unit :=
  try_except (close_any_modal_for close_selectors) any_exception (ret tt).

(** ** Records and the data frame *)

(** A [dict] with [str] keys and values, in insertion order. *)
Definition dict := list (string * string).

Fixpoint dict_get (d : dict) (key : string) : option string :=
  match d with
  | [] => None
  | (k, v) :: rest => if String.eqb k key then Some v else dict_get rest key
  end.

Record DataFrame : Type := mkDataFrame {
  columns : list string;
  rows : list (list (option string))
}.

Definition add_column (cols : list string) (key : string) : list string :=
  if existsb (String.eqb key) cols then cols else cols ++ [key].

(** [pd.DataFrame(jobs)] for a list of dicts: the columns are the keys in
    the order they first appear, a key a dict lacks gives an empty cell. *)
Definition pd_DataFrame (jobs : list dict) : DataFrame :=
  let cols := fold_left (fun cols d => fold_left add_column (map fst d) cols) jobs [] in
  mkDataFrame cols (map (fun d => map (dict_get d) cols) jobs).

(** [len(df)] *)
Definition len_df (df : DataFrame) : Z := len (rows df).

(** [df.to_csv("glassdoor_jobs.csv", index=False)] (line 327) *)
Definition DataFrame_to_csv (df : DataFrame) : M W unit :=
  fun s => (Ok tt, mkSession (world s) (trace s)
                     (Some (map Some (columns df) :: rows df))).

(** [jobs.to_csv("glassdoor_jobs.csv", index=False)] with [jobs] the list
    built by [jobs = []] and [jobs.append] (line 234): a [list] has no
    attribute [to_csv]. *)
Definition list_to_csv (jobs : list dict) : M W unit :=
  raise AttributeError.

(** ** get_jobs (lines 76-311) *)

(** line 224 *)
Definition description_field (job_description : string) : string :=
  if (500 <? Z.of_nat (String.length job_description))%Z
  then (substring 0 500 job_description ++ "...")%string
  else job_description.

Definition listing_selector : string :=
  "li[data-test='jobListing'], li.JobsList_jobListItem__wjThv, div[data-test='job-listing']".

Definition detail_selector : string :=
  "div[data-test='job-details-panel'], div[class*='JobDetails_jobDetails']".

Definition scroll_into_view : string :=
  "arguments[0].scrollIntoView({behavior: 'smooth', block: 'center'});".

(** lines 206-228 *)
Definition read_job_data (detail_pane : WebElement) : M W dict :=
  job_title <- safe_find detail_pane (Lst ["h1.heading_Level1__w42c9"; "h1[id*='jd-job-title-']"; "div[data-test='jobTitle']"]) "-1" ;;
  company_name <- safe_find detail_pane (Lst ["div.EmployerProfile_employerNameHeading__bXBYr"; "div[data-test='employerName']"]) "-1" ;;
  rating <- safe_find detail_pane (Lst ["span.rating-single-star_RatingText__5fdjN"; "span[data-test='detailRating']"]) "-1" ;;
  location <- safe_find detail_pane (Lst ["div[data-test='location']"]) "-1" ;;
  salary_estimate <- safe_find detail_pane (Lst ["div[data-test='detailSalary']"; "span[data-test='detailSalary']"]) "-1" ;;
  job_description <- safe_find detail_pane (Lst ["div.JobDetails_jobDescription__uW_fK"; "div[data-test='jobDescriptionText']"]) "-1" ;;
  headquarters <- safe_find detail_pane (Lst [".//div[span[text()='Headquarters']]/div"]) "-1" ;;
  size <- safe_find detail_pane (Lst [".//div[span[text()='Size']]/div"]) "-1" ;;
  founded <- safe_find detail_pane (Lst [".//div[span[text()='Founded']]/div"]) "-1" ;;
  type_of_ownership <- safe_find detail_pane (Lst [".//div[span[text()='Type']]/div"]) "-1" ;;
  industry <- safe_find detail_pane (Lst [".//div[span[text()='Industry']]/div"]) "-1" ;;
  sector <- safe_find detail_pane (Lst [".//div[span[text()='Sector']]/div"]) "-1" ;;
  revenue <- safe_find detail_pane (Lst [".//div[span[text()='Revenue']]/div"]) "-1" ;;
  competitors <- safe_find detail_pane (Lst [".//div[span[text()='Competitors']]/div"]) "-1" ;;
  ret [ ("Job Title", job_title); ("Company", company_name); ("Location", location);
        ("Salary Estimate", salary_estimate); ("Rating", rating);
        ("Description", description_field job_description);
        ("Headquarters", headquarters); ("Size", size); ("Founded", founded);
        ("Ownership", type_of_ownership); ("Industry", industry); ("Sector", sector);
        ("Revenue", revenue); ("Competitors", competitors) ].

(** How one pass through the body of the [for] ends. *)
Inductive flow : Type := Next | Break.

(** lines 177-232, one pass of the [for] over the new cards *)
Definition card_pass (num_jobs : Z) (jobs : list dict) (card : WebElement)
  : M W (flow * list dict) :=
  if (num_jobs <=? len jobs)%Z then ret (Break, jobs) else
  close_any_modal ;;
  clicked <- try_except
      (perform (ExecuteScript scroll_into_view [card]) ;;
       sleep 400 ;;
       try_except (perform (Click card)) any_exception
                  (perform (ExecuteScript "arguments[0].click();" [card])) ;;
       sleep 2000 ;;
       ret true)
      any_exception (ret false) ;;
  if negb clicked then ret (Next, jobs) else
  found <- try_except
      (detail_pane <- perform (UntilPresence 8 CSS_SELECTOR detail_selector) ;;
       ret (Some detail_pane))
      is_TimeoutException (ret None) ;;
  match found with
  | None => ret (Next, jobs)
  | Some detail_pane =>
      job_data <- read_job_data detail_pane ;;
      ret (Next, jobs ++ [job_data])
  end.

(** lines 176-232 *)
Fixpoint dispatch (num_jobs : Z) (new_job_cards : list WebElement) (jobs : list dict)
  : M W (list dict) :=
  match new_job_cards with
  | [] => ret jobs
  | card :: rest =>
      r <- card_pass num_jobs jobs card ;;
      match r with
      | (Break, jobs) => ret jobs
      | (Next, jobs) => dispatch num_jobs rest jobs
      end
  end.

(** The variables the [while] loop carries from one pass to the next. *)
Record LoopState : Type := mkLoopState {
  jobs : list dict;
  page_num : Z;
  scraped_card_count : nat
}.

Definition max_pages : Z := 10.

(** The places where the loop is left, named after the spec's reasons:
    the condition of the [while] ([TargetReached], [PageLimit]), line 152
    ([NoListings]), line 173 ([NoCards]), line 293 ([NoLink]), line 297
    ([NavigationError]) and line 302 ([NoContinuation]). *)
Inductive exit : Type :=
| TargetReached
| PageLimit
| NoListings
| NoCards
| NoLink
| NavigationError
| NoContinuation.

(** How one pass through the body of the [while] ends: [Again] is
    [continue] or the end of the body, [Stop] is [break]. *)
Inductive pass : Type :=
| Again (st : LoopState)
| Stop (why : exit) (st : LoopState).

(** lines 241-263, CASE 1: [true] when the button was clicked (the
    [continue] of line 260) *)
Definition show_more : M W bool :=
  try_except
    (perform (ExecuteScript "window.scrollTo(0, document.body.scrollHeight);" []) ;;
     sleep 2000 ;;
     show_more_btn <- perform (FindElement None CSS_SELECTOR "button[data-test='load-more']") ;;
     enabled <- perform (IsEnabled show_more_btn) ;;
     usable <- (if enabled then perform (IsDisplayed show_more_btn) else ret false) ;;
     if usable
     then perform (Click show_more_btn) ;; sleep 4000 ;; ret true
     else ret false)
    any_exception (ret false).

Definition see_more_xpath : string := "//a[contains(., 'See more jobs')]".

(** lines 267-288, the body of the [try] of CASE 2: [true] when the
    session moved to the new URL (the [continue] of line 288) *)
Definition see_more_try : M W bool :=
  more_jobs_link <- perform (FindElement None XPATH see_more_xpath) ;;
  new_url <- perform (GetAttribute more_jobs_link "href") ;;
  match new_url with
  | Some url =>
      if truthy url
      then perform (Get url) ;; sleep 5000 ;; close_any_modal ;; ret true
      else ret false
  | None => ret false
  end.

(** lines 237-302, reached with [len(jobs) < num_jobs] *)
Definition continuation (all_job_cards : list WebElement) (st : LoopState) : M W pass :=
  clicked <- show_more ;;
  if clicked
  then ret (Again (mkLoopState (jobs st) (page_num st) (List.length all_job_cards)))
  else
    try_except
      (try_except
         (moved <- see_more_try ;;
          if moved
          then ret (Again (mkLoopState (jobs st) 1 0))
          else ret (Stop NoContinuation st))
         is_NoSuchElementException (ret (Stop NoLink st)))
      any_exception (ret (Stop NavigationError st)).

Section Loop.
(** The statement of line 234, [jobs.to_csv("glassdoor_jobs.csv", index=False)]. *)
Variable to_csv : list dict -> M W unit.
Variable num_jobs : Z.

(** lines 143-302, one pass through the body of the [while] *)
Definition loop_body (st : LoopState) : M W pass :=
  listed <- try_except
      (perform (UntilPresence 10 CSS_SELECTOR listing_selector) ;; ret true)
      is_TimeoutException (ret false) ;;
  if negb listed then ret (Stop NoListings st) else
  all_job_cards <- perform (FindElements CSS_SELECTOR "li[data-test='jobListing']") ;;
  all_job_cards <-
    (match all_job_cards with
     | [] => perform (FindElements CSS_SELECTOR
                        "li.JobsList_jobListItem__wjThv, div[data-test='job-listing']")
     | _ => ret all_job_cards
     end) ;;
  let new_job_cards := skipn (scraped_card_count st) all_job_cards in
  match all_job_cards with
  | [] => ret (Stop NoCards st)
  | _ =>
      jobs <- dispatch num_jobs new_job_cards (jobs st) ;;
      to_csv jobs ;;
      let st := mkLoopState jobs (page_num st) (scraped_card_count st) in
      if (len jobs <? num_jobs)%Z
      then continuation all_job_cards st
      else ret (Again st)
  end.

(** line 142, the condition of the [while] *)
Definition loop_guard (st : LoopState) : bool :=
  (len (jobs st) <? num_jobs)%Z && (page_num st <=? max_pages)%Z.

(** Which half of the condition of the [while] is false when it is: the
    first ([TargetReached]) or, the first holding, the second ([PageLimit]). *)
Definition guard_exit (st : LoopState) : exit :=
  if (len (jobs st) <? num_jobs)%Z then PageLimit else TargetReached.

(** lines 142-302.  The loop need not end (a 'Show more jobs' button can
    stay on the page for ever), so it runs on fuel: [None] is fuel used up. *)
Fixpoint while_loop (fuel : nat) (st : LoopState) : M W (option (exit * LoopState)) :=
  if loop_guard st then
    match fuel with
    | O => ret None
    | S fuel =>
        r <- loop_body st ;;
        match r with
        | Again st => while_loop fuel st
        | Stop why st => ret (Some (why, st))
        end
    end
  else ret (Some (guard_exit st, st)).

End Loop.

(** [os.path.join(a, b)] on Linux, for a relative [b] *)
Definition path_join (a b : string) : string :=
  if orb (negb (truthy a)) (String.eqb (substring (String.length a - 1) 1 a) "/")
  then (a ++ b)%string
  else (a ++ "/" ++ b)%string.

(** lines 83-103 *)
Definition build_options : M W Options :=
  args <- try_except
      (cwd <- perform Getcwd ;;
       let profile_path := path_join cwd "chrome_profile" in
       ret [("--user-data-dir=" ++ profile_path)%string])
      any_exception (ret []) ;;
  ret (mkOptions
         (args ++
          [ "--no-sandbox"; "--disable-dev-shm-usage"; "--disable-gpu";
            "--window-size=1920,1080"; "--start-maximized";
            "--disable-blink-features=AutomationControlled";
            "--remote-debugging-port=9222";
            "user-agent=Mozilla/5.0 (X11; Linux x86_64) AppleWebKit/537.36 (KHTML, like Gecko) Chrome/120.0.0.0 Safari/537.36" ])
         [ ("excludeSwitches", PyList ["enable-automation"]);
           ("useAutomationExtension", PyBool false) ]
         (Some "/usr/bin/chromium-browser")).

(** lines 79-81: the value of [headless] from line 82 on *)
Definition headless_after_check (headless : bool) : bool :=
  if headless then false else headless.

(** lines 79-131, up to the first [close_any_modal]; the result is the
    value of [headless] the rest of the function sees *)
Definition open_search (keyword : string) (headless : bool) : M W bool :=
  let headless := headless_after_check headless in
  options <- build_options ;;
  try_except
    (service <- perform InstallChromeDriver ;;
     perform (Chrome (Some service) options))
    any_exception (perform (Chrome None options)) ;;
  perform (ExecuteCdpCmd "Network.setUserAgentOverride"
     [("userAgent", "Mozilla/5.Example/5.0 (X11; Linux x86_64) AppleWebKit/537.36 (KHTML, like Gecko) Chrome/120.0.0.0 Safari/537.36")]) ;;
  perform (ExecuteScript "Object.defineProperty(navigator, 'webdriver', {get: () => undefined})" []) ;;
  let search_url :=
    ("https://www.glassdoor.com/Job/jobs.htm?sc.keyword=" ++ keyword
     ++ "&locT=&locId=jobType=")%string in
  perform (Get search_url) ;;
  sleep 3000 ;;
  close_any_modal ;;
  ret headless.

(** lines 133-139 *)
Definition initial_state : LoopState := mkLoopState [] 1 0.

(** lines 76-302: the run up to the end of the loop, with the place where
    the loop was left and its variables there *)
Definition collect (to_csv : list dict -> M W unit) (keyword : string) (num_jobs : Z)
  (headless verbose : bool) (fuel : nat) : M W (option (exit * LoopState)) :=
  open_search keyword headless ;;
  while_loop to_csv num_jobs fuel initial_state.

(** lines 76-311, over the statement of line 234 *)
Definition get_jobs_with (to_csv : list dict -> M W unit) (keyword : string) (num_jobs : Z)
  (headless verbose : bool) (fuel : nat) : M W (option DataFrame) :=
  r <- collect to_csv keyword num_jobs headless verbose fuel ;;
  match r with
  | Some (_, st) => ret (Some (pd_DataFrame (jobs st)))
  | None => ret None
  end.

(** lines 76-311 as written: line 234 calls [to_csv] on the list *)
Definition get_jobs : string -> Z -> bool -> bool -> nat -> M W (option DataFrame) :=
  get_jobs_with list_to_csv.

(** lines 318-333 *)
Definition main (fuel : nat) : M W (option DataFrame) :=
  r <- get_jobs "data scientist" 2000 false true fuel ;;
  match r with
  | Some df =>
      (if (0 <? len_df df)%Z then DataFrame_to_csv df else ret tt) ;;
      ret (Some df)
  | None => ret None
  end.

End Program.

(** ** A simulated site

    A small site to run the program on: a results page with [cards]
    listing cards (the elements 1 to [cards]), a 'Show more jobs' button
    that adds the next number of [more] on each click and is gone when
    [more] is empty, possibly a 'See more jobs' link to a further page, and
    possibly an overlay with a close button.  The detail pane is element
    1000; only the title, the company and the description can be found in
    it, the title under its third locator only. *)
Record Site : Type := mkSite {
  cards : nat;
  more : list nat;
  next_page : option (string * nat);
  modal : bool;
  selected : nat;
  description : string
}.

Definition select_card (e : WebElement) (w : Site) : Site :=
  mkSite (cards w) (more w) (next_page w) (modal w) e (description w).

Definition is_card (e : WebElement) (w : Site) : bool :=
  Nat.leb 1 e && Nat.leb e (cards w).

Definition site_respond (A : Type) (c : Call A) (w : Site) : Outcome A * Site :=
  match c in Call A return Outcome A * Site with
  | Getcwd => (Ok "/home/user", w)
  | InstallChromeDriver => (Ok "/home/user/.wdm/chromedriver", w)
  | Chrome _ _ => (Ok tt, w)
  | ExecuteCdpCmd _ _ => (Ok tt, w)
  | ExecuteScript script args =>
      match args with
      | [e] => if String.eqb script "arguments[0].click();" && is_card e w
               then (Ok tt, select_card e w) else (Ok tt, w)
      | _ => (Ok tt, w)
      end
  | Get url =>
      match next_page w with
      | Some (href, n) =>
          if String.eqb url href
          then (Ok tt, mkSite n [] None (modal w) 0 (description w))
          else (Ok tt, w)
      | None => (Ok tt, w)
      end
  | FindElement None CSS_SELECTOR value =>
      if modal w && String.eqb value "button[aria-label='Close']" then (Ok 2002, w)
      else if String.eqb value "button[data-test='load-more']"
              && negb (Nat.eqb (List.length (more w)) 0) then (Ok 2000, w)
      else (Raise NoSuchElementException, w)
  | FindElement None XPATH value =>
      match next_page w with
      | Some _ => if String.eqb value see_more_xpath then (Ok 2001, w)
                  else (Raise NoSuchElementException, w)
      | None => (Raise NoSuchElementException, w)
      end
  | FindElement (Some base) by_ value =>
      if negb (Nat.eqb base 1000) then (Raise NoSuchElementException, w)
      else if String.eqb value "div[data-test='jobTitle']" then (Ok 1001, w)
      else if String.eqb value "div[data-test='employerName']" then (Ok 1002, w)
      else if String.eqb value "div.JobDetails_jobDescription__uW_fK" then (Ok 1003, w)
      else (Raise NoSuchElementException, w)
  | FindElements by_ value =>
      if String.eqb value "li[data-test='jobListing']" then (Ok (seq 1 (cards w)), w)
      else (Ok [], w)
  | UntilPresence _ _ value =>
      if String.eqb value listing_selector
      then (if Nat.eqb (cards w) 0 then Raise TimeoutException else Ok 1, w)
      else if String.eqb value detail_selector
      then (if Nat.eqb (selected w) 0 then Raise TimeoutException else Ok 1000, w)
      else (Raise TimeoutException, w)
  | Click e =>
      if Nat.eqb e 2000 then
        match more w with
        | k :: rest => (Ok tt, mkSite (cards w + k) rest (next_page w) (modal w)
                                 (selected w) (description w))
        | [] => (Raise StaleElementReferenceException, w)
        end
      else if Nat.eqb e 2002 then
        (Ok tt, mkSite (cards w) (more w) (next_page w) false (selected w) (description w))
      else if is_card e w then
        (if modal w then (Raise ElementClickInterceptedException, w)
         else (Ok tt, select_card e w))
      else (Raise StaleElementReferenceException, w)
  | Text e =>
      if Nat.eqb e 1001 then (Ok "  Data Scientist ", w)
      else if Nat.eqb e 1002 then (Ok "Acme", w)
      else if Nat.eqb e 1003 then (Ok (description w), w)
      else (Raise StaleElementReferenceException, w)
  | IsEnabled _ => (Ok true, w)
  | IsDisplayed _ => (Ok true, w)
  | GetAttribute e name =>
      match next_page w with
      | Some (href, _) =>
          if Nat.eqb e 2001 && String.eqb name "href" then (Ok (Some href), w)
          else (Ok None, w)
      | None => (Ok None, w)
      end
  end.

#[export] Instance site_driver : WebDriver Site :=
  {| respond := site_respond; elapse := fun _ w => w |}.

(** The session before the program starts: nothing called, no file. *)
Definition fresh {W} (w : W) : Session W := mkSession w [] None.

(** The cards the program clicked on, in order, as the trace has them. *)
Definition clicked_cards (t : list Event) : list WebElement :=
  flat_map (fun ev => match ev with
                      | Called (Click e) => if Nat.ltb e 1000 then [e] else []
                      | _ => []
                      end) t.

(** The page-wide searches [driver.find_element(By.CSS_SELECTOR, value)]
    of a trace, in order. *)
Definition searched (t : list Event) : list string :=
  flat_map (fun ev => match ev with
                      | Called (FindElement None CSS_SELECTOR value) => [value]
                      | _ => []
                      end) t.

(** [ev] is the page-wide search for the 'See more jobs' link. *)
Definition is_see_more_search (ev : Event) : bool :=
  match ev with
  | Called (FindElement None XPATH value) => String.eqb value see_more_xpath
  | _ => false
  end.

(** [ev] is the scroll to the bottom that opens the 'Show more jobs' attempt. *)
Definition is_scroll_to_bottom (ev : Event) : bool :=
  match ev with
  | Called (ExecuteScript script _) =>
      String.eqb script "window.scrollTo(0, document.body.scrollHeight);"
  | _ => false
  end.

(** The command-line arguments that put Chrome in headless mode
    ([--headless], [--headless=new], ...). *)
Definition is_headless_argument (a : string) : bool := String.prefix "--headless" a.

(** [ev] starts a browser whose options ask for headless mode. *)
Definition is_headless_launch (ev : Event) : bool :=
  match ev with
  | Called (Chrome _ options) => existsb is_headless_argument (arguments options)
  | _ => false
  end.

(** [ev] starts a browser. *)
Definition is_launch (ev : Event) : bool :=
  match ev with
  | Called (Chrome _ _) => true
  | _ => false
  end.

(** ** Specifications in the words of the spec *)

Section Specification.
Context {W : Type} {driver : WebDriver W}.

(** Section 4.1: a locator is a non-match when its resolution fails, when
    reading the text fails, or when the trimmed text is empty. *)
Inductive locator_fails (root : WebElement) (locator : string) (s : Session W)
  : Session W -> Prop :=
| fails_to_resolve e s1 :
    find_by_selector root locator s = (Raise e, s1) ->
    locator_fails root locator s s1
| fails_to_read element s1 e s2 :
    find_by_selector root locator s = (Ok element, s1) ->
    perform (Text element) s1 = (Raise e, s2) ->
    locator_fails root locator s s2
| yields_empty element s1 raw s2 :
    find_by_selector root locator s = (Ok element, s1) ->
    perform (Text element) s1 = (Ok raw, s2) ->
    strip raw = "" ->
    locator_fails root locator s s2.

(** Section 4.1: the locators are tried in order; [Some text] is the
    trimmed text of the first that resolves to non-empty text, [None] says
    that every one was a non-match. *)
Inductive first_match (root : WebElement)
  : list string -> Session W -> option string -> Session W -> Prop :=
| no_locator_left s : first_match root [] s None s
| locator_matches locator rest s element s1 raw s2 :
    find_by_selector root locator s = (Ok element, s1) ->
    perform (Text element) s1 = (Ok raw, s2) ->
    strip raw <> "" ->
    first_match root (locator :: rest) s (Some (strip raw)) s2
| locator_skipped locator rest s s1 r s2 :
    locator_fails root locator s s1 ->
    first_match root rest s1 r s2 ->
    first_match root (locator :: rest) s r s2.

(** Section 4.2: a close control is a non-match when it is not found or
    its activation fails. *)
Inductive close_fails (locator : string) (s : Session W) : Session W -> Prop :=
| close_not_found e s1 :
    perform (FindElement None CSS_SELECTOR locator) s = (Raise e, s1) ->
    close_fails locator s s1
| close_not_activated close_btn s1 e s2 :
    perform (FindElement None CSS_SELECTOR locator) s = (Ok close_btn, s1) ->
    perform (Click close_btn) s1 = (Raise e, s2) ->
    close_fails locator s s2.

(** Section 4.2: [dismissed locators s tried s'] runs the dismisser over
    [locators] from [s] to [s']; [tried] are the locators it attempted.  On
    the first control found and activated it pauses and stops. *)
Inductive dismissed : list string -> Session W -> list string -> Session W -> Prop :=
| none_matched s : dismissed [] s [] s
| closed_one locator rest s close_btn s1 s2 :
    perform (FindElement None CSS_SELECTOR locator) s = (Ok close_btn, s1) ->
    perform (Click close_btn) s1 = (Ok tt, s2) ->
    dismissed (locator :: rest) s [locator] (snd (sleep 1000 s2))
| tried_next locator rest s s1 tried s2 :
    close_fails locator s s1 ->
    dismissed rest s1 tried s2 ->
    dismissed (locator :: rest) s (locator :: tried) s2.

(** The heads of the loop a run passes through: from [(st, s)] the
    condition of the [while] holds, the body runs and comes back to the
    condition with [(st', s')], any number of times. *)
Inductive reaches (to_csv : list dict -> M W unit) (num_jobs : Z)
  : LoopState * Session W -> LoopState * Session W -> Prop :=
| reaches_here x : reaches to_csv num_jobs x x
| reaches_later st s st1 s1 y :
    loop_guard num_jobs st = true ->
    loop_body to_csv num_jobs st s = (Ok (Again st1), s1) ->
    reaches to_csv num_jobs (st1, s1) y ->
    reaches to_csv num_jobs (st, s) y.

End Specification.

(** ** Relations between the session before and after *)

(** [m] relates the session it starts in to the one it ends in by [R],
    whatever its outcome. *)
Definition respects {W} (R : Session W -> Session W -> Prop) {A} (m : M W A) : Prop :=
  forall s r s', m s = (r, s') -> R s s'.

(** The output file is as it was. *)
Definition keeps_file {W} (s s' : Session W) : Prop :=
  glassdoor_jobs_csv s' = glassdoor_jobs_csv s.

(** The trace grew, and by events that satisfy [allowed] only. *)
Definition adds_only {W} (allowed : Event -> bool) (s s' : Session W) : Prop :=
  exists t, trace s' = trace s ++ t /\ forallb allowed t = true.

Definition not_headless_launch (ev : Event) : bool := negb (is_headless_launch ev).

Definition not_see_more_search (ev : Event) : bool := negb (is_see_more_search ev).

(** The loop variables a pass of the body ends with. *)
Definition pass_state (r : pass) : LoopState :=
  match r with Again st | Stop _ st => st end.

(** Any event at all. *)
Definition any_event (ev : Event) : bool := true.

(** Line 234 with the list made a data frame first, as line 327 writes
    the file. *)
Definition frame_to_csv {W} (jobs : list dict) : M W unit :=
  DataFrame_to_csv (pd_DataFrame jobs).

(** ** Sites the program is run on below *)

Definition one_card : Site := mkSite 1 [] None false 0 "A job.".

Definition five_then_ten : Site := mkSite 5 [10] None false 0 "A job.".

Definition no_listings : Site := mkSite 0 [] None false 0 "".

Definition two_cards_and_link : Site :=
  mkSite 2 [] (Some ("https://www.glassdoor.com/Job/more-jobs.htm", 3)) false 0 "A job.".

Definition overlay_open : Site := mkSite 1 [] None true 0 "A job.".

(** A description of 600 characters. *)
Definition long_description : string := string_of_list_ascii (repeat "a"%char 600).

Definition long_job : Site := mkSite 1 [] None false 0 long_description.

(** The locators of the description, as line 211 lists them. *)
Definition description_locators : list string :=
  ["div.JobDetails_jobDescription__uW_fK"; "div[data-test='jobDescriptionText']"].

(** ** More to read traces and records with *)

(** The keys of a record, in the order line 221 writes them. *)
Definition job_columns : list string :=
  [ "Job Title"; "Company"; "Location"; "Salary Estimate"; "Rating"; "Description";
    "Headquarters"; "Size"; "Founded"; "Ownership"; "Industry"; "Sector";
    "Revenue"; "Competitors" ].

(** The cards an event scrolls into view (line 183). *)
Definition scrolled_of (ev : Event) : list WebElement :=
  match ev with
  | Called (ExecuteScript script args) =>
      if String.eqb script scroll_into_view then args else []
  | _ => []
  end.

(** The cards a trace scrolls into view, in order. *)
Definition scrolled (t : list Event) : list WebElement := flat_map scrolled_of t.

Definition not_scroll (ev : Event) : bool :=
  match scrolled_of ev with [] => true | _ => false end.

(** [ev] looks an element up below [root], or reads the text of one. *)
Definition is_lookup_under (root : WebElement) (ev : Event) : bool :=
  match ev with
  | Called (FindElement (Some base) _ _) => Nat.eqb base root
  | Called (Text _) => true
  | _ => false
  end.

(** [ev] is a page-wide search by CSS selector, a click, or a pause of
    one second. *)
Definition is_close_event (ev : Event) : bool :=
  match ev with
  | Called (FindElement None CSS_SELECTOR _) => true
  | Called (Click _) => true
  | Slept ms => N.eqb ms 1000
  | _ => false
  end.

Definition is_click (ev : Event) : bool :=
  match ev with Called (Click _) => true | _ => false end.

Definition is_visibility_check (ev : Event) : bool :=
  match ev with Called (IsDisplayed _) => true | _ => false end.

(** [ev] loads a page. *)
Definition is_get (ev : Event) : bool :=
  match ev with Called (Get _) => true | _ => false end.

(** [s] has no white space at either end. *)
Definition trimmed (s : string) : Prop := strip s = s.



(** ** A site behind a session that can fail

    [fault] says which calls raise, and what; [disabled] and [hidden] are
    what every element answers to [is_enabled] and [is_displayed]; with
    [vanished] the listing cards are gone when the page is queried for
    them ([find_elements] gives the empty list); the other calls go to the
    [site]. *)
Record Flaky : Type := mkFlaky {
  fault : Event -> option exn;
  disabled : bool;
  hidden : bool;
  vanished : bool;
  site : Site
}.

Definition flaky_respond (A : Type) (c : Call A) (w : Flaky) : Outcome A * Flaky :=
  match fault w (Called c) with
  | Some e => (Raise e, w)
  | None =>
      match c in Call A return Outcome A * Flaky with
      | IsEnabled _ => (Ok (negb (disabled w)), w)
      | IsDisplayed _ => (Ok (negb (hidden w)), w)
      | FindElements by_ value =>
          if vanished w then (Ok [], w)
          else let (r, w') := site_respond (FindElements by_ value) (site w) in
               (r, mkFlaky (fault w) (disabled w) (hidden w) (vanished w) w')
      | other =>
          let (r, w') := site_respond other (site w) in
          (r, mkFlaky (fault w) (disabled w) (hidden w) (vanished w) w')
      end
  end.

#[export] Instance flaky_driver : WebDriver Flaky | 10 :=
  {| respond := flaky_respond; elapse := fun _ w => w |}.

(** The session is gone: every call raises. *)
Definition all_fail (ev : Event) : option exn := Some WebDriverException.

Definition none_fail (ev : Event) : option exn := None.

(** A click on a listing card is intercepted. *)
Definition card_clicks_fail (ev : Event) : option exn :=
  match ev with
  | Called (Click e) => if Nat.ltb e 1000 then Some ElementClickInterceptedException else None
  | _ => None
  end.

(** A card can be neither clicked nor activated by script. *)
Definition cards_inert (ev : Event) : option exn :=
  match ev with
  | Called (Click e) => if Nat.ltb e 1000 then Some ElementClickInterceptedException else None
  | Called (ExecuteScript script _) =>
      if String.eqb script "arguments[0].click();" then Some WebDriverException else None
  | _ => None
  end.

(** The wait for [value] raises [e]. *)
Definition wait_raises (e : exn) (value : string) (ev : Event) : option exn :=
  match ev with
  | Called (UntilPresence _ _ v) => if String.eqb v value then Some e else None
  | _ => None
  end.

(** No script can be run. *)
Definition scripts_fail (ev : Event) : option exn :=
  match ev with
  | Called (ExecuteScript _ _) => Some WebDriverException
  | _ => None
  end.

(** The driver cannot be installed, the browser starts all the same. *)
Definition install_fails (ev : Event) : option exn :=
  match ev with
  | Called InstallChromeDriver => Some OSError
  | _ => None
  end.

(** The click on the 'Show more jobs' button is intercepted. *)
Definition button_click_fails (ev : Event) : option exn :=
  match ev with
  | Called (Click e) => if Nat.eqb e 2000 then Some ElementClickInterceptedException else None
  | _ => None
  end.

(** No page can be loaded. *)
Definition loads_fail (ev : Event) : option exn :=
  match ev with
  | Called (Get _) => Some WebDriverException
  | _ => None
  end.

Definition flaky (f : Event -> option exn) (w : Site) : Flaky :=
  mkFlaky f false false false w.

(** The 'See more jobs' link is there but has an empty [href]. *)
Definition link_without_target : Site := mkSite 2 [] (Some ("", 3)) false 0 "A job.".

(** * Properties *)

(** ** The monad *)

Section Monad_facts.
Context {W : Type} {driver : WebDriver W}.

Lemma bind_Ok_inv A B (m : M W A) (k : A -> M W B) s b s' :
  bind m k s = (Ok b, s') ->
  exists a s1, m s = (Ok a, s1) /\ k a s1 = (Ok b, s').
Proof.
  unfold bind. destruct (m s) as [[a|e] s1]; intros H.
  - exists a, s1. split; [reflexivity | exact H].
  - discriminate H.
Qed.

Lemma bind_Ok A B (m : M W A) (k : A -> M W B) s a s1 :
  m s = (Ok a, s1) -> bind m k s = k a s1.
Proof. intros H. unfold bind. rewrite H. reflexivity. Qed.

Lemma bind_Raise A B (m : M W A) (k : A -> M W B) s e s1 :
  m s = (Raise e, s1) -> bind m k s = (Raise e, s1).
Proof. intros H. unfold bind. rewrite H. reflexivity. Qed.

Lemma perform_trace A (c : Call A) s r s' :
  perform c s = (r, s') ->
  trace s' = trace s ++ [Called c] /\ glassdoor_jobs_csv s' = glassdoor_jobs_csv s.
Proof.
  unfold perform. destruct (respond c (world s)) as [r0 w].
  intros H. inversion H. subst. split; reflexivity.
Qed.

Lemma sleep_trace ms s :
  trace (snd (sleep ms s)) = trace s ++ [Slept ms].
Proof. reflexivity. Qed.

End Monad_facts.

(** ** Strings *)

Lemma length_append (a b : string) :
  String.length (a ++ b)%string = String.length a + String.length b.
Proof. induction a as [|c a IH]; simpl; [reflexivity | rewrite IH; reflexivity]. Qed.

Lemma length_substring_0 (n : nat) : forall s : string,
  n <= String.length s -> String.length (substring 0 n s) = n.
Proof.
  induction n as [|n IH]; intros s Hn.
  - destruct s; reflexivity.
  - destruct s as [|c s]; simpl in *; [lia |].
    rewrite IH; [reflexivity | lia].
Qed.

Lemma truthy_false (s : string) : truthy s = false -> s = "".
Proof. destruct s; [reflexivity | discriminate]. Qed.

Lemma truthy_true (s : string) : truthy s = true -> s <> "".
Proof. destruct s; [discriminate | intros _ H; discriminate H]. Qed.

(** ** safe_find *)

Section Safe_find_facts.
Context {W : Type} {driver : WebDriver W}.

Lemma safe_find_for_first_match (root : WebElement) (default : string) (locators : list string) :
  forall s : Session W,
  exists r s',
    first_match root locators s r s' /\
    safe_find_for root locators default s
    = (Ok (match r with Some text => text | None => default end), s').
Proof.
  induction locators as [|locator rest IH]; intros s.
  - exists None, s. split; [constructor | reflexivity].
  - cbn [safe_find_for]. unfold bind at 1, try_except, safe_find_try, bind.
    destruct (find_by_selector root locator s) as [[element|e] s1] eqn:Hfind.
    + destruct (perform (Text element) s1) as [[raw|e] s2] eqn:Htext.
      * destruct (truthy (strip raw)) eqn:Htruth.
        -- exists (Some (strip raw)), s2. split; [| reflexivity].
           eapply locator_matches; eauto using truthy_true.
        -- destruct (IH s2) as (r & s' & Hfirst & Heq).
           exists r, s'. split; [| exact Heq].
           eapply locator_skipped; [| exact Hfirst].
           eapply yields_empty; eauto using truthy_false.
      * destruct (IH s2) as (r & s' & Hfirst & Heq).
        exists r, s'. split; [| exact Heq].
        eapply locator_skipped; [| exact Hfirst].
        eapply fails_to_read; eauto.
    + destruct (IH s1) as (r & s' & Hfirst & Heq).
      exists r, s'. split; [| exact Heq].
      eapply locator_skipped; [| exact Hfirst].
      eapply fails_to_resolve; eauto.
Qed.

(** [safe_find] always returns: no exception leaves it. *)
Lemma safe_find_returns (root : WebElement) (l : str_or_list) (default : string) (s : Session W) :
  exists text s', safe_find root l default s = (Ok text, s').
Proof.
  unfold safe_find.
  destruct (safe_find_for_first_match root default
              (match l with Str x => [x] | Lst x => x end) s) as (r & s' & _ & H).
  eauto.
Qed.

End Safe_find_facts.

(** C4. Whatever the root element and the ordered list of locators,
    [safe_find] returns and does not raise; its result is the trimmed text
    of the first locator, in list order, that resolves to an element whose
    trimmed text is not empty, and the sentinel "-1" when every locator is
    a non-match.  A locator whose resolution (or whose text) raises counts
    as a non-match ([locator_fails]) and the search goes on. *)
Theorem safe_find_first_nonempty_or_sentinel :
  forall (W : Type) (driver : WebDriver W) (root : WebElement) (locators : list string)
         (s : Session W),
  exists r s',
    first_match root locators s r s' /\
    safe_find root (Lst locators) "-1" s
    = (Ok (match r with Some text => text | None => "-1" end), s').
Proof.
  intros W driver root locators s. unfold safe_find.
  apply safe_find_for_first_match.
Qed.

(** ** close_any_modal *)

Section Close_any_modal_facts.
Context {W : Type} {driver : WebDriver W}.

Lemma searched_app (t1 t2 : list Event) :
  searched (t1 ++ t2) = searched t1 ++ searched t2.
Proof. unfold searched. apply flat_map_app. Qed.

Lemma close_any_modal_for_dismissed (locators : list string) :
  forall s : Session W,
  exists tried s',
    close_any_modal_for locators s = (Ok tt, s') /\
    dismissed locators s tried s' /\
    exists t, trace s' = trace s ++ t /\ searched t = tried.
Proof.
  induction locators as [|locator rest IH]; intros s.
  - exists [], s. split; [reflexivity |]. split; [constructor |].
    exists []. split; [symmetry; apply app_nil_r | reflexivity].
  - cbn [close_any_modal_for]. unfold bind at 1, try_except, close_try, bind.
    destruct (perform (FindElement None CSS_SELECTOR locator) s)
      as [[close_btn|e] s1] eqn:Hfind.
    + destruct (perform (Click close_btn) s1) as [[[]|e] s2] eqn:Hclick.
      * exists [locator], (snd (sleep 1000 s2)).
        split; [reflexivity |]. split; [eapply closed_one; eauto |].
        apply perform_trace in Hfind. apply perform_trace in Hclick.
        destruct Hfind as [Hfind _]. destruct Hclick as [Hclick _].
        exists [Called (FindElement None CSS_SELECTOR locator);
                Called (Click close_btn); Slept 1000].
        split; [| reflexivity].
        rewrite sleep_trace, Hclick, Hfind, <- !app_assoc. reflexivity.
      * destruct (IH s2) as (tried & s' & Heq & Hdis & t & Ht & Hs).
        exists (locator :: tried), s'. cbn [any_exception ret].
        split; [exact Heq |].
        split; [eapply tried_next; [eapply close_not_activated; eauto | exact Hdis] |].
        apply perform_trace in Hfind. apply perform_trace in Hclick.
        destruct Hfind as [Hfind _]. destruct Hclick as [Hclick _].
        exists ([Called (FindElement None CSS_SELECTOR locator);
                 Called (Click close_btn)] ++ t).
        split.
        -- rewrite Ht, Hclick, Hfind, <- !app_assoc. reflexivity.
        -- rewrite searched_app, Hs. reflexivity.
    + destruct (IH s1) as (tried & s' & Heq & Hdis & t & Ht & Hs).
      exists (locator :: tried), s'. cbn [any_exception ret].
      split; [exact Heq |].
      split; [eapply tried_next; [eapply close_not_found; eauto | exact Hdis] |].
      apply perform_trace in Hfind. destruct Hfind as [Hfind _].
      exists ([Called (FindElement None CSS_SELECTOR locator)] ++ t).
      split.
      * rewrite Ht, Hfind, <- !app_assoc. reflexivity.
      * rewrite searched_app, Hs. reflexivity.
Qed.

(** [close_any_modal] always returns. *)
Lemma close_any_modal_returns (s : Session W) :
  exists s', close_any_modal s = (Ok tt, s').
Proof.
  destruct (close_any_modal_for_dismissed close_selectors s) as (tried & s' & H & _).
  exists s'. unfold close_any_modal, try_except. rewrite H. reflexivity.
Qed.

(** The locators tried are an initial part of the list, and when a control
    was closed it is the last one tried. *)
Lemma dismissed_tried_prefix (locators tried : list string) (s s' : Session W) :
  dismissed locators s tried s' ->
  exists rest, locators = tried ++ rest.
Proof.
  induction 1 as [s | locator rest s close_btn s1 s2 _ _
                  | locator rest s s1 tried s2 _ _ IH].
  - exists []. reflexivity.
  - exists rest. reflexivity.
  - destruct IH as [rest' IH]. exists rest'. rewrite IH. reflexivity.
Qed.

End Close_any_modal_facts.

(** C9. In every session [close_any_modal] returns without raising.  It
    tries the five close-control locators in their fixed order
    ([dismissed]): a locator that is not found, or whose click fails, is
    passed over; after the first control found and clicked it pauses one
    second and ends.  The page-wide searches it made are exactly the
    locators [tried], an initial part of the list that ends with the
    locator that worked when one did; when none works all five are tried
    and it returns all the same. *)
Theorem close_any_modal_stops_at_first_success :
  forall (W : Type) (driver : WebDriver W) (s : Session W),
  exists tried s',
    close_any_modal s = (Ok tt, s') /\
    dismissed close_selectors s tried s' /\
    (exists rest, close_selectors = tried ++ rest) /\
    (exists t, trace s' = trace s ++ t /\ searched t = tried).
Proof.
  intros W driver s.
  destruct (close_any_modal_for_dismissed close_selectors s)
    as (tried & s' & Heq & Hdis & Ht).
  exists tried, s'. split.
  - unfold close_any_modal, try_except. rewrite Heq. reflexivity.
  - split; [exact Hdis |]. split; [| exact Ht].
    eapply dismissed_tried_prefix; eauto.
Qed.

(** ** The description field *)

Lemma read_job_data_description (W : Type) (driver : WebDriver W) pane (s : Session W) job s' :
  read_job_data pane s = (Ok job, s') ->
  exists job_description s0 s1,
    safe_find pane (Lst description_locators) "-1" s0 = (Ok job_description, s1) /\
    dict_get job "Description" = Some (description_field job_description).
Proof.
  unfold read_job_data. intros H.
  repeat (apply bind_Ok_inv in H; destruct H as (? & ? & ? & H)).
  inversion H. subst.
  eexists. eexists. eexists. split; [unfold description_locators; eassumption | reflexivity].
Qed.

(** C5. A description longer than 500 characters is stored as its first
    500 characters followed by the three characters "...", 503 characters
    in all; a description of 500 characters or fewer is stored as it is.
    Stored: the "Description" entry of every record [read_job_data] builds is
    [description_field] of the text [safe_find] returned for the
    description locators. *)
Theorem description_truncated_beyond_500 :
  forall job_description : string,
    (500 < String.length job_description ->
     description_field job_description
     = (substring 0 500 job_description ++ "...")%string /\
     String.length (description_field job_description) = 503) /\
    (String.length job_description <= 500 ->
     description_field job_description = job_description) /\
    (forall (W : Type) (driver : WebDriver W) pane (s : Session W) job s',
        read_job_data pane s = (Ok job, s') ->
        exists text s0 s1,
          safe_find pane (Lst description_locators) "-1" s0 = (Ok text, s1) /\
          dict_get job "Description" = Some (description_field text)).
Proof.
  intros d. unfold description_field. split; [| split].
  - intros H. destruct (500 <? Z.of_nat (String.length d))%Z eqn:E.
    + split; [reflexivity |].
      rewrite length_append, length_substring_0 by lia. reflexivity.
    + apply Z.ltb_ge in E. lia.
  - intros H. destruct (500 <? Z.of_nat (String.length d))%Z eqn:E.
    + apply Z.ltb_lt in E. lia.
    + reflexivity.
  - intros W driver pane s job s' H.
    destruct (@read_job_data_description W driver pane s job s' H)
      as (text & s0 & s1 & Hfind & Hget).
    exists text, s0, s1. split; [exact Hfind | exact Hget].
Qed.

(** ** What a run leaves behind

    A relation [R] between the session before and after that the monad's
    operations keep is kept by every part of the program built from them. *)

Section Frame.
Context {W : Type} {driver : WebDriver W}.
Variable R : Session W -> Session W -> Prop.
Hypothesis R_refl : forall s, R s s.
Hypothesis R_trans : forall a b c, R a b -> R b c -> R a c.

Lemma respects_ret A (a : A) : respects R (ret a).
Proof. intros s r s' H. inversion H. subst. apply R_refl. Qed.

Lemma respects_raise A (e : exn) : respects R (@raise W A e).
Proof. intros s r s' H. inversion H. subst. apply R_refl. Qed.

Lemma respects_bind A B (m : M W A) (k : A -> M W B) :
  respects R m -> (forall a, respects R (k a)) -> respects R (bind m k).
Proof.
  intros Hm Hk s r s'. unfold bind.
  destruct (m s) as [[a|e] s1] eqn:E; intros H.
  - eapply R_trans; [eapply Hm; eauto | eapply Hk; eauto].
  - inversion H. subst. eapply Hm; eauto.
Qed.

Lemma respects_try_except A (m h : M W A) (catches : exn -> bool) :
  respects R m -> respects R h -> respects R (try_except m catches h).
Proof.
  intros Hm Hh s r s'. unfold try_except.
  destruct (m s) as [[a|e] s1] eqn:E; intros H.
  - inversion H. subst. eapply Hm; eauto.
  - destruct (catches e).
    + eapply R_trans; [eapply Hm; eauto | eapply Hh; eauto].
    + inversion H. subst. eapply Hm; eauto.
Qed.

Hypothesis R_sleep : forall ms, respects R (sleep ms).
Hypothesis R_perform :
  forall A (c : Call A), is_launch (Called c) = false -> respects R (perform c).
Hypothesis R_launch :
  forall service options,
    existsb is_headless_argument (arguments options) = false ->
    respects R (perform (Chrome service options)).

Ltac frame :=
  repeat first
    [ assumption
    | match goal with
      | H : forall _, respects R _ |- respects R _ => simple apply H
      | |- respects R (ret _) => apply respects_ret
      | |- respects R (raise _) => apply respects_raise
      | |- respects R (sleep _) => apply R_sleep
      | |- respects R (perform _) => apply R_perform; reflexivity
      | |- respects R (bind _ _) => apply respects_bind; [| intros ?]
      | |- respects R (try_except _ _ _) => apply respects_try_except
      | |- respects R (if ?b then _ else _) => destruct b
      | |- respects R (match ?x with _ => _ end) => destruct x
      | |- respects R (let _ := _ in _) => cbv zeta
      end ].

Lemma respects_safe_find root l default : respects R (safe_find root l default).
Proof.
  unfold safe_find.
  generalize (match l with Str x => [x] | Lst x => x end). intros locators.
  induction locators as [|locator rest IH]; cbn [safe_find_for].
  - frame.
  - unfold safe_find_try, find_by_selector. frame.
Qed.

Lemma respects_close_any_modal : respects R close_any_modal.
Proof.
  unfold close_any_modal. apply respects_try_except; [| frame].
  induction close_selectors as [|locator rest IH]; cbn [close_any_modal_for].
  - frame.
  - unfold close_try. frame.
Qed.

Lemma respects_read_job_data pane : respects R (read_job_data pane).
Proof.
  unfold read_job_data.
  repeat (apply respects_bind; [apply respects_safe_find | intros ?]).
  apply respects_ret.
Qed.

Lemma respects_card_pass num_jobs jobs card : respects R (card_pass num_jobs jobs card).
Proof.
  pose proof respects_close_any_modal. pose proof respects_read_job_data.
  unfold card_pass. frame.
Qed.

Lemma respects_dispatch num_jobs cards : forall jobs, respects R (dispatch num_jobs cards jobs).
Proof.
  induction cards as [|card rest IH]; intros jobs; cbn [dispatch].
  - frame.
  - apply respects_bind; [apply respects_card_pass |].
    intros [[|] jobs']; [apply IH | frame].
Qed.

Lemma respects_show_more : respects R show_more.
Proof. unfold show_more. frame. Qed.

Lemma respects_see_more_try : respects R see_more_try.
Proof. pose proof respects_close_any_modal. unfold see_more_try. frame. Qed.

Lemma respects_continuation cards st : respects R (continuation cards st).
Proof.
  pose proof respects_show_more. pose proof respects_see_more_try.
  unfold continuation. frame.
Qed.

Lemma respects_bind_with A B (P : A -> Prop) (m : M W A) (k : A -> M W B) :
  respects R m ->
  (forall s a s1, m s = (Ok a, s1) -> P a) ->
  (forall a, P a -> respects R (k a)) ->
  respects R (bind m k).
Proof.
  intros Hm HP Hk s r s'. unfold bind.
  destruct (m s) as [[a|e] s1] eqn:E; intros H.
  - eapply R_trans; [eapply Hm; eauto | eapply Hk; eauto].
  - inversion H. subst. eapply Hm; eauto.
Qed.

Lemma build_options_not_headless s options s' :
  build_options s = (Ok options, s') ->
  existsb is_headless_argument (arguments options) = false.
Proof.
  unfold build_options, bind, try_except.
  destruct (perform Getcwd s) as [[cwd|e] s1]; cbn [any_exception ret];
    intros H; inversion H; reflexivity.
Qed.

Lemma respects_build_options : respects R build_options.
Proof. unfold build_options. frame. Qed.

Lemma respects_open_search keyword headless : respects R (open_search keyword headless).
Proof.
  pose proof respects_close_any_modal.
  unfold open_search. cbv zeta.
  eapply respects_bind_with;
    [apply respects_build_options | apply build_options_not_headless |].
  intros options Hoptions.
  apply respects_bind.
  - apply respects_try_except; [| apply R_launch; exact Hoptions].
    apply respects_bind; [frame |]. intros service.
    apply R_launch; exact Hoptions.
  - intros _. frame.
Qed.

Section Frame_loop.
Variable to_csv : list dict -> M W unit.
Hypothesis R_to_csv : forall jobs, respects R (to_csv jobs).
Variable num_jobs : Z.

Lemma respects_loop_body st : respects R (loop_body to_csv num_jobs st).
Proof.
  unfold loop_body.
  apply respects_bind; [frame |]. intros listed.
  destruct (negb listed); [frame |].
  apply respects_bind; [frame |]. intros found.
  apply respects_bind; [frame |]. intros all_job_cards.
  destruct all_job_cards as [|c l]; [frame |].
  apply respects_bind; [apply respects_dispatch |]. intros jobs'.
  apply respects_bind; [apply R_to_csv |]. intros _.
  destruct (len jobs' <? num_jobs)%Z; [apply respects_continuation | frame].
Qed.

Lemma respects_while_loop fuel : forall st, respects R (while_loop to_csv num_jobs fuel st).
Proof.
  induction fuel as [|fuel IH]; intros st; cbn [while_loop];
    destruct (loop_guard num_jobs st); try solve [frame].
  apply respects_bind; [apply respects_loop_body |].
  intros [st'|why st']; [apply IH | frame].
Qed.

Lemma respects_collect keyword headless verbose fuel :
  respects R (collect to_csv keyword num_jobs headless verbose fuel).
Proof.
  unfold collect. apply respects_bind; [apply respects_open_search |].
  intros _. apply respects_while_loop.
Qed.

Lemma respects_get_jobs_with keyword headless verbose fuel :
  respects R (get_jobs_with to_csv keyword num_jobs headless verbose fuel).
Proof.
  unfold get_jobs_with. apply respects_bind; [apply respects_collect |].
  intros [[why st]|]; apply respects_ret.
Qed.

End Frame_loop.

End Frame.

Section Frame_instances.
Context {W : Type} {driver : WebDriver W}.

Lemma keeps_file_refl (s : Session W) : keeps_file s s.
Proof. reflexivity. Qed.

Lemma keeps_file_trans (a b c : Session W) :
  keeps_file a b -> keeps_file b c -> keeps_file a c.
Proof. unfold keeps_file. intros H1 H2. rewrite H2. exact H1. Qed.

Lemma keeps_file_perform A (c : Call A) : respects keeps_file (perform c).
Proof. intros s r s' H. apply perform_trace in H. apply H. Qed.

Lemma keeps_file_sleep ms : respects (@keeps_file W) (sleep ms).
Proof. intros s r s' H. inversion H. reflexivity. Qed.

Lemma adds_only_refl allowed (s : Session W) : adds_only allowed s s.
Proof. exists []. split; [symmetry; apply app_nil_r | reflexivity]. Qed.

Lemma adds_only_trans allowed (a b c : Session W) :
  adds_only allowed a b -> adds_only allowed b c -> adds_only allowed a c.
Proof.
  intros (t1 & H1 & A1) (t2 & H2 & A2). exists (t1 ++ t2). split.
  - rewrite H2, H1, app_assoc. reflexivity.
  - rewrite forallb_app, A1, A2. reflexivity.
Qed.

Lemma adds_only_perform allowed A (c : Call A) :
  allowed (Called c) = true -> respects (adds_only allowed) (perform c).
Proof.
  intros Hc s r s' H. apply perform_trace in H. destruct H as [H _].
  exists [Called c]. split; [exact H |]. cbn. rewrite Hc. reflexivity.
Qed.

Lemma adds_only_sleep allowed ms :
  allowed (Slept ms) = true -> respects (@adds_only W allowed) (sleep ms).
Proof.
  intros Hc s r s' H. inversion H. exists [Slept ms].
  split; [reflexivity |]. cbn. rewrite Hc. reflexivity.
Qed.

(** As written, [get_jobs] leaves the output file as it found it. *)
Lemma get_jobs_keeps_file keyword num_jobs headless verbose fuel :
  respects keeps_file (get_jobs keyword num_jobs headless verbose fuel).
Proof.
  unfold get_jobs. apply respects_get_jobs_with.
  - apply keeps_file_refl.
  - apply keeps_file_trans.
  - apply keeps_file_sleep.
  - intros A c _. apply keeps_file_perform.
  - intros service options _. apply keeps_file_perform.
  - intros jobs. apply respects_raise. apply keeps_file_refl.
Qed.

(** No part of a run starts a browser with a headless argument. *)
Lemma get_jobs_not_headless keyword num_jobs headless verbose fuel :
  respects (adds_only not_headless_launch)
           (get_jobs keyword num_jobs headless verbose fuel).
Proof.
  unfold get_jobs. apply respects_get_jobs_with.
  - apply adds_only_refl.
  - apply adds_only_trans.
  - intros ms. apply adds_only_sleep. reflexivity.
  - intros A c Hc. apply adds_only_perform.
    destruct c; try reflexivity. discriminate Hc.
  - intros service options Hoptions. apply adds_only_perform.
    unfold not_headless_launch. cbn. rewrite Hoptions. reflexivity.
  - intros jobs. apply respects_raise. apply adds_only_refl.
Qed.

Lemma bind_result A B (P : B -> Prop) (m : M W A) (k : A -> M W B) :
  (forall a s, match fst (k a s) with Ok b => P b | Raise _ => True end) ->
  forall s, match fst (bind m k s) with Ok b => P b | Raise _ => True end.
Proof.
  intros Hk s. unfold bind. destruct (m s) as [[a|e] s1]; [apply Hk | exact I].
Qed.

Lemma open_search_result keyword headless (s : Session W) :
  fst (open_search keyword headless s) = Ok false \/
  exists e, fst (open_search keyword headless s) = Raise e.
Proof.
  assert (H : forall s0 : Session W,
             match fst (open_search keyword headless s0) with
             | Ok h => h = false
             | Raise _ => True
             end).
  { unfold open_search. cbv zeta.
    repeat (apply (bind_result (fun h => h = false)); intros ?).
    intros s0. cbn. destruct headless; reflexivity. }
  specialize (H s). destruct (fst (open_search keyword headless s)) as [h|e].
  - left. rewrite H. reflexivity.
  - right. exists e. reflexivity.
Qed.

End Frame_instances.

(** ** The headless argument *)

(** C10. Whatever the argument [headless], the value used from line 82 on
    is [False]: a run with [headless=True] makes the same calls and gives
    the same result as the run with [headless=False]; [open_search]
    returns with the flag off; and no browser is ever started, in any run,
    with an option that asks for headless mode.  ([headless] is the third
    of the four parameters of [get_jobs]; what the spec lists as the
    invocation surface is a matter of the document, not of the code.) *)
Theorem headless_argument_is_overridden :
  forall (W : Type) (driver : WebDriver W) (keyword : string) (num_jobs : Z)
         (verbose : bool) (fuel : nat) (s : Session W),
    (forall headless, headless_after_check headless = false) /\
    get_jobs keyword num_jobs true verbose fuel s
    = get_jobs keyword num_jobs false verbose fuel s /\
    (forall headless,
        fst (open_search keyword headless s) = Ok false \/
        exists e, fst (open_search keyword headless s) = Raise e) /\
    (forall headless,
        adds_only not_headless_launch s
          (snd (get_jobs keyword num_jobs headless verbose fuel s))).
Proof.
  intros W driver keyword num_jobs verbose fuel s.
  split; [intros []; reflexivity |].
  split; [reflexivity |].
  split; [intros headless; apply open_search_result |].
  intros headless.
  destruct (get_jobs keyword num_jobs headless verbose fuel s) as [r s'] eqn:E.
  eapply get_jobs_not_headless; eauto.
Qed.

(** ** The collection loop *)

Section Loop_facts.
Context {W : Type} {driver : WebDriver W}.

Lemma len_app A (l1 l2 : list A) : len (l1 ++ l2) = (len l1 + len l2)%Z.
Proof. unfold len. rewrite length_app. lia. Qed.

(** One pass of the [for]: at the target it breaks at once and calls
    nothing; below the target it appends at most one record. *)
Lemma card_pass_result num_jobs jobs card (s : Session W) f jobs' s' :
  card_pass num_jobs jobs card s = (Ok (f, jobs'), s') ->
  (f = Break /\ jobs' = jobs /\ s' = s /\ (num_jobs <= len jobs)%Z) \/
  (f = Next /\ (len jobs < num_jobs)%Z /\
   (jobs' = jobs \/ exists job_data, jobs' = jobs ++ [job_data])).
Proof.
  unfold card_pass. destruct (num_jobs <=? len jobs)%Z eqn:Htarget.
  - intros H. inversion H. subst. left. apply Z.leb_le in Htarget. auto.
  - apply Z.leb_gt in Htarget. intros H. right.
    apply bind_Ok_inv in H. destruct H as (_ & s1 & _ & H).
    apply bind_Ok_inv in H. destruct H as (clicked & s2 & _ & H).
    destruct clicked; cbn [negb] in H.
    + apply bind_Ok_inv in H. destruct H as (found & s3 & _ & H).
      destruct found as [detail_pane|].
      * apply bind_Ok_inv in H. destruct H as (job_data & s4 & _ & H).
        inversion H. subst. eauto 6.
      * inversion H. subst. auto.
    + inversion H. subst. auto.
Qed.

Lemma card_pass_at_target num_jobs jobs card (s : Session W) :
  (num_jobs <= len jobs)%Z ->
  card_pass num_jobs jobs card s = (Ok (Break, jobs), s).
Proof.
  intros H. unfold card_pass. apply Z.leb_le in H. rewrite H. reflexivity.
Qed.

(** The [for] loop only appends, and never beyond the target. *)
Lemma dispatch_result num_jobs cards : forall jobs (s : Session W) jobs' s',
  dispatch num_jobs cards jobs s = (Ok jobs', s') ->
  (exists added, jobs' = jobs ++ added) /\
  ((len jobs <= num_jobs)%Z -> (len jobs' <= num_jobs)%Z).
Proof.
  induction cards as [|card rest IH]; intros jobs s jobs' s' H; cbn [dispatch] in H.
  - inversion H. subst. split; [exists []; symmetry; apply app_nil_r | auto].
  - apply bind_Ok_inv in H. destruct H as ([f jobs1] & s1 & Hpass & H).
    apply card_pass_result in Hpass.
    destruct Hpass as [(-> & -> & -> & Hle) | (-> & Hlt & Hjobs)].
    + inversion H. subst. split; [exists []; symmetry; apply app_nil_r | auto].
    + apply IH in H. destruct H as [[added Hadded] Hbound].
      destruct Hjobs as [-> | [job_data ->]].
      * split; [eauto | exact Hbound].
      * split.
        -- exists ([job_data] ++ added). rewrite Hadded, app_assoc. reflexivity.
        -- intros _. apply Hbound. rewrite len_app. cbn. lia.
Qed.

Lemma try_except_any_returns A (m : M W A) (a0 : A) (s : Session W) :
  exists a s', try_except m any_exception (ret a0) s = (Ok a, s').
Proof.
  unfold try_except, ret. destruct (m s) as [[a|e] s1]; cbn; eauto.
Qed.

Lemma show_more_returns (s : Session W) : exists clicked s', show_more s = (Ok clicked, s').
Proof. unfold show_more. apply try_except_any_returns. Qed.

(** The continuation decision never raises, and it leaves the loop only
    after the 'See more jobs' attempt. *)
Lemma continuation_result cards st (s : Session W) :
  exists clicked s1,
    show_more s = (Ok clicked, s1) /\
    if clicked
    then continuation cards st s
         = (Ok (Again (mkLoopState (jobs st) (page_num st) (List.length cards))), s1)
    else exists s',
        (see_more_try s1 = (Ok true, s') /\
         continuation cards st s = (Ok (Again (mkLoopState (jobs st) 1 0)), s')) \/
        (see_more_try s1 = (Ok false, s') /\
         continuation cards st s = (Ok (Stop NoContinuation st), s')) \/
        (exists e, see_more_try s1 = (Raise e, s') /\
         exists why, continuation cards st s = (Ok (Stop why st), s')).
Proof.
  destruct (show_more_returns s) as (clicked & s1 & Hshow).
  exists clicked, s1. split; [exact Hshow |].
  assert (Hcont : continuation cards st s
                  = (if clicked
                     then ret (Again (mkLoopState (jobs st) (page_num st) (List.length cards)))
                     else try_except
                            (try_except
                               (bind see_more_try (fun moved =>
                                  if moved
                                  then ret (Again (mkLoopState (jobs st) 1%Z 0))
                                  else ret (Stop NoContinuation st)))
                               is_NoSuchElementException (ret (Stop NoLink st)))
                            any_exception (ret (Stop NavigationError st))) s1).
  { unfold continuation, bind at 1. rewrite Hshow. reflexivity. }
  rewrite Hcont. clear Hcont.
  destruct clicked; [reflexivity |].
  unfold try_except, bind.
  destruct (see_more_try s1) as [[[|]|e] s'] eqn:Hsee; exists s'.
  - left. split; reflexivity.
  - right. left. split; reflexivity.
  - right. right. exists e. split; [reflexivity |].
    destruct (is_NoSuchElementException e); cbn; eexists; reflexivity.
Qed.

Lemma continuation_state cards st (s : Session W) r s' :
  continuation cards st s = (r, s') ->
  exists p, r = Ok p /\ jobs (pass_state p) = jobs st /\
    (page_num (pass_state p) = page_num st \/ page_num (pass_state p) = 1%Z).
Proof.
  intros H.
  destruct (continuation_result cards st s) as (clicked & s1 & _ & Hc).
  destruct clicked.
  - rewrite Hc in H. inversion H. subst. eexists. split; [reflexivity |]. cbn. auto.
  - destruct Hc as (s2 & [[_ Hc] | [[_ Hc] | (e & _ & why & Hc)]]);
      rewrite Hc in H; inversion H; subst; eexists; (split; [reflexivity |]); cbn; auto.
Qed.

Section Loop_body_facts.
Variable to_csv : list dict -> M W unit.
Variable num_jobs : Z.

(** What one pass of the [while] does to the loop variables. *)
Lemma loop_body_state st (s : Session W) r s' :
  loop_body to_csv num_jobs st s = (Ok r, s') ->
  (exists added, jobs (pass_state r) = jobs st ++ added) /\
  ((len (jobs st) <= num_jobs)%Z -> (len (jobs (pass_state r)) <= num_jobs)%Z) /\
  (page_num (pass_state r) = page_num st \/ page_num (pass_state r) = 1%Z).
Proof.
  assert (Hsame : forall st0 : LoopState,
    (exists added, jobs st0 = jobs st0 ++ added) /\
    ((len (jobs st0) <= num_jobs)%Z -> (len (jobs st0) <= num_jobs)%Z) /\
    (page_num st0 = page_num st0 \/ page_num st0 = 1%Z)).
  { intros st0. split; [exists []; symmetry; apply app_nil_r | auto]. }
  unfold loop_body. intros H.
  apply bind_Ok_inv in H. destruct H as (listed & s0 & _ & H).
  destruct listed; cbn [negb] in H; [| inversion H; subst; apply Hsame].
  apply bind_Ok_inv in H. destruct H as (cards0 & s1 & _ & H).
  apply bind_Ok_inv in H. destruct H as (all_job_cards & s2 & _ & H).
  destruct all_job_cards as [|c l]; [inversion H; subst; apply Hsame |].
  apply bind_Ok_inv in H. destruct H as (jobs' & s3 & Hdispatch & H).
  apply bind_Ok_inv in H. destruct H as (_ & s4 & _ & H).
  apply dispatch_result in Hdispatch. destruct Hdispatch as [Hadded Hbound].
  destruct (len jobs' <? num_jobs)%Z.
  - apply continuation_state in H. destruct H as (p & Hp & Hjobs & Hpage).
    inversion Hp. subst p. rewrite Hjobs. cbn in *. auto.
  - inversion H. subst. cbn. auto.
Qed.

(** A property of the loop variables that every pass keeps holds where
    the loop ends. *)
Lemma while_loop_invariant (P : LoopState -> Prop) :
  (forall st s r s', P st -> loop_body to_csv num_jobs st s = (Ok r, s') ->
                     P (pass_state r)) ->
  forall fuel st (s : Session W) why st' s',
    P st ->
    while_loop to_csv num_jobs fuel st s = (Ok (Some (why, st')), s') ->
    P st'.
Proof.
  intros Hbody fuel.
  induction fuel as [|fuel IH]; intros st s why st' s' HP H; cbn [while_loop] in H;
    destruct (loop_guard num_jobs st).
  - discriminate H.
  - inversion H. subst. exact HP.
  - apply bind_Ok_inv in H. destruct H as (r & s1 & Hr & H).
    specialize (Hbody _ _ _ _ HP Hr).
    destruct r as [st1|why1 st1]; cbn in Hbody.
    + exact (IH _ _ _ _ _ Hbody H).
    + inversion H. subst. exact Hbody.
  - inversion H. subst. exact HP.
Qed.

(** The same at every head of the loop a run passes through. *)
Lemma reaches_invariant (P : LoopState -> Prop) :
  (forall st s r s', P st -> loop_body to_csv num_jobs st s = (Ok r, s') ->
                     P (pass_state r)) ->
  forall x y : LoopState * Session W,
    reaches to_csv num_jobs x y -> P (fst x) -> P (fst y).
Proof.
  intros Hbody x y Hreach.
  induction Hreach as [x | st s st1 s1 y _ Hpass _ IH]; intros HP; [exact HP |].
  apply IH. exact (Hbody _ _ _ _ HP Hpass).
Qed.

Lemma while_loop_guard_false fuel st (s : Session W) :
  loop_guard num_jobs st = false ->
  while_loop to_csv num_jobs fuel st s = (Ok (Some (guard_exit num_jobs st, st)), s).
Proof. intros H. destruct fuel; cbn [while_loop]; rewrite H; reflexivity. Qed.

End Loop_body_facts.

End Loop_facts.

(** ** The continuation decision *)

Ltac trace_frame :=
  repeat first
    [ assumption
    | match goal with
      | |- respects _ (ret _) => apply respects_ret; apply adds_only_refl
      | |- respects _ (raise _) => apply respects_raise; apply adds_only_refl
      | |- respects _ (sleep _) => apply adds_only_sleep; reflexivity
      | |- respects _ (perform _) => apply adds_only_perform; reflexivity
      | |- respects _ (bind _ _) =>
          apply respects_bind; [apply adds_only_trans | | intros ?]
      | |- respects _ (try_except _ _ _) =>
          apply respects_try_except; [apply adds_only_trans | | ]
      | |- respects _ (if ?b then _ else _) => destruct b
      | |- respects _ (match ?x with _ => _ end) => destruct x
      end ].

Section Continuation_facts.
Context {W : Type} {driver : WebDriver W}.

Lemma close_any_modal_adds_any : respects (@adds_only W any_event) close_any_modal.
Proof.
  apply respects_close_any_modal.
  - apply adds_only_refl.
  - apply adds_only_trans.
  - intros ms. apply adds_only_sleep. reflexivity.
  - intros A c _. apply adds_only_perform. reflexivity.
Qed.

(** The 'Show more jobs' attempt never looks for the 'See more jobs' link. *)
Lemma show_more_no_see_more_search :
  respects (@adds_only W not_see_more_search) show_more.
Proof. unfold show_more. trace_frame. Qed.

(** A computation that begins with the call [c] has it in its trace. *)
Lemma begins_with A B (c : Call A) (k : A -> M W B) (s : Session W) r s' :
  (forall a, respects (adds_only any_event) (k a)) ->
  bind (perform c) k s = (r, s') ->
  exists t, trace s' = trace s ++ Called c :: t.
Proof.
  intros Hk. unfold bind.
  destruct (perform c s) as [[a|e] s1] eqn:Hc; intros H;
    apply perform_trace in Hc; destruct Hc as [Hc _].
  - apply Hk in H. destruct H as (t & Ht & _).
    exists t. rewrite Ht, Hc, <- app_assoc. reflexivity.
  - inversion H. subst. exists []. exact Hc.
Qed.

Lemma show_more_scrolls (s : Session W) r s' :
  show_more s = (r, s') ->
  exists t, trace s' = trace s ++ t /\ existsb is_scroll_to_bottom t = true.
Proof.
  unfold show_more, try_except.
  match goal with
  | |- context [match ?m s with _ => _ end] => destruct (m s) as [[b|e] s1] eqn:Hm
  end.
  - intros H. inversion H. subst.
    apply begins_with in Hm; [| intros ?; trace_frame].
    destruct Hm as (t & Ht). eexists. split; [exact Ht | reflexivity].
  - cbn. intros H. inversion H. subst.
    apply begins_with in Hm; [| intros ?; trace_frame].
    destruct Hm as (t & Ht). eexists. split; [exact Ht | reflexivity].
Qed.

Lemma see_more_try_searches (s : Session W) r s' :
  see_more_try s = (r, s') ->
  exists t, trace s' = trace s ++ t /\ existsb is_see_more_search t = true.
Proof.
  unfold see_more_try. intros H.
  apply begins_with in H.
  - destruct H as (t & Ht). eexists. split; [exact Ht | reflexivity].
  - pose proof close_any_modal_adds_any. intros ?. trace_frame.
Qed.

(** What [see_more_try] does when the link is there, has a target and
    the session moves to it. *)
Lemma see_more_try_moves (s1 s2 s3 s4 : Session W) link url :
  perform (FindElement None XPATH see_more_xpath) s1 = (Ok link, s2) ->
  perform (GetAttribute link "href") s2 = (Ok (Some url), s3) ->
  url <> "" ->
  perform (Get url) s3 = (Ok tt, s4) ->
  exists s', close_any_modal (snd (sleep 5000 s4)) = (Ok tt, s') /\
             see_more_try s1 = (Ok true, s').
Proof.
  intros Hlink Hurl Hne Hget.
  destruct (close_any_modal_returns (snd (sleep 5000 s4))) as [s' Hclose].
  exists s'. split; [exact Hclose |].
  unfold see_more_try, bind. rewrite Hlink, Hurl.
  destruct url as [|c url]; [contradiction Hne; reflexivity |].
  cbn [truthy]. rewrite Hget. cbn in Hclose |- *. rewrite Hclose. reflexivity.
Qed.

End Continuation_facts.

(** C7. In the continuation decision (lines 237-302), from any loop
    state and session:
    - when the 'Show more jobs' attempt has not clicked, the 'See more
      jobs' link is found, its [href] is a non-empty URL and the session
      moves there, the pass ends with [scraped_card_count = 0] and
      [page_num = 1] and goes back to the head of the loop ([Again]), the
      records kept;
    - when the 'Show more jobs' attempt clicks, the pass ends there and
      the link was never looked for: the link is tried only after that
      attempt has failed;
    - the decision never raises, and when it leaves the loop ([Stop]) both
      attempts were made: the trace has the scroll that opens the first
      and the search for the link of the second;
    - after a pass that ends in [Again] the loop goes on from its head,
      with the condition checked and then the wait for listing elements. *)
Theorem full_navigation_resets_and_comes_last :
  forall (W : Type) (driver : WebDriver W) (all_job_cards : list WebElement)
         (st : LoopState) (s : Session W),
    (forall s1 link s2 url s3 s4,
        show_more s = (Ok false, s1) ->
        perform (FindElement None XPATH see_more_xpath) s1 = (Ok link, s2) ->
        perform (GetAttribute link "href") s2 = (Ok (Some url), s3) ->
        url <> "" ->
        perform (Get url) s3 = (Ok tt, s4) ->
        exists s',
          close_any_modal (snd (sleep 5000 s4)) = (Ok tt, s') /\
          continuation all_job_cards st s
          = (Ok (Again (mkLoopState (jobs st) 1 0)), s')) /\
    (forall s1,
        show_more s = (Ok true, s1) ->
        continuation all_job_cards st s
        = (Ok (Again (mkLoopState (jobs st) (page_num st) (List.length all_job_cards))), s1)
        /\ adds_only not_see_more_search s s1) /\
    (exists r s', continuation all_job_cards st s = (Ok r, s')) /\
    (forall why st' s',
        continuation all_job_cards st s = (Ok (Stop why st'), s') ->
        st' = st /\
        exists t, trace s' = trace s ++ t /\
                  existsb is_scroll_to_bottom t = true /\
                  existsb is_see_more_search t = true) /\
    (forall (to_csv : list dict -> M W unit) (num_jobs : Z) (fuel : nat) st1 s1,
        loop_guard num_jobs st = true ->
        loop_body to_csv num_jobs st s = (Ok (Again st1), s1) ->
        while_loop to_csv num_jobs (S fuel) st s = while_loop to_csv num_jobs fuel st1 s1).
Proof.
  intros W driver cards st s.
  destruct (continuation_result cards st s) as (clicked & s0 & Hshow & Hcont).
  split; [| split; [| split; [| split]]].
  - intros s1 link s2 url s3 s4 Hfalse Hlink Hurl Hne Hget.
    rewrite Hfalse in Hshow. inversion Hshow. subst clicked s0.
    destruct (see_more_try_moves _ Hlink Hurl Hne Hget) as (s' & Hclose & Hsee).
    exists s'. split; [exact Hclose |].
    destruct Hcont as (s'' & [[Hs Hc] | [[Hs Hc] | (e & Hs & _)]]);
      rewrite Hsee in Hs; inversion Hs. subst. exact Hc.
  - intros s1 Htrue. rewrite Htrue in Hshow. inversion Hshow. subst clicked s0.
    split; [exact Hcont |]. eapply show_more_no_see_more_search; eauto.
  - destruct clicked; [eauto |].
    destruct Hcont as (s' & [[_ Hc] | [[_ Hc] | (e & _ & why & Hc)]]); eauto.
  - intros why st' s' Hstop.
    destruct clicked; [rewrite Hcont in Hstop; discriminate Hstop |].
    apply show_more_scrolls in Hshow. destruct Hshow as (t1 & Ht1 & Hscroll).
    assert (Hsee : st' = st /\ exists r, see_more_try s0 = (r, s')).
    { destruct Hcont as (s'' & [[_ Hc] | [[Hs Hc] | (e & Hs & why' & Hc)]]);
        rewrite Hc in Hstop; inversion Hstop; subst; eauto. }
    destruct Hsee as [-> [r Hsee]]. split; [reflexivity |].
    apply see_more_try_searches in Hsee. destruct Hsee as (t2 & Ht2 & Hsearch).
    exists (t1 ++ t2). split; [rewrite Ht2, Ht1, app_assoc; reflexivity |].
    rewrite !existsb_app, Hscroll, Hsearch. split; [reflexivity | apply orb_true_r].
  - intros to_csv num_jobs fuel st1 s1 Hguard Hbody.
    cbn [while_loop]. rewrite Hguard. unfold bind. rewrite Hbody. reflexivity.
Qed.

(** ** The page counter *)

(** C2. Whatever line 234 does and whatever the target:
    - a pass of the loop leaves [page_num] as it was or sets it to 1 (the
      reset of line 287): it never goes down except by that reset, and no
      statement adds to it, so increasing holds in the sense of not
      decreasing;
    - at every head of the loop a run passes through, and where the loop
      ends, [page_num] is 1, within [max_pages];
    - the condition of the [while] is checked before each pass: from a
      state whose counter exceeds [max_pages], or where the condition is
      false for the other reason, the loop ends at once, with no call made
      and the state as it is. *)
Theorem page_counter_bounded_and_checked :
  forall (W : Type) (driver : WebDriver W) (to_csv : list dict -> M W unit) (num_jobs : Z),
    (forall st s r s',
        loop_body to_csv num_jobs st s = (Ok r, s') ->
        page_num (pass_state r) = page_num st \/ page_num (pass_state r) = 1%Z) /\
    (forall s st' s',
        reaches to_csv num_jobs (initial_state, s) (st', s') ->
        page_num st' = 1%Z /\ (page_num st' <= max_pages)%Z) /\
    (forall fuel s why st' s',
        while_loop to_csv num_jobs fuel initial_state s = (Ok (Some (why, st')), s') ->
        page_num st' = 1%Z /\ (page_num st' <= max_pages)%Z) /\
    (forall fuel st s,
        (max_pages < page_num st)%Z ->
        while_loop to_csv num_jobs fuel st s
        = (Ok (Some (guard_exit num_jobs st, st)), s)) /\
    (forall fuel st s,
        loop_guard num_jobs st = false ->
        while_loop to_csv num_jobs fuel st s
        = (Ok (Some (guard_exit num_jobs st, st)), s)).
Proof.
  intros W driver to_csv num_jobs.
  assert (Hkeeps : forall st s r s',
             page_num st = 1%Z ->
             loop_body to_csv num_jobs st s = (Ok r, s') ->
             page_num (pass_state r) = 1%Z).
  { intros st s r s' H1 Hbody. apply loop_body_state in Hbody.
    destruct Hbody as (_ & _ & [H | H]); congruence. }
  split; [| split; [| split; [| split]]].
  - intros st s r s' Hbody. apply loop_body_state in Hbody.
    destruct Hbody as (_ & _ & H). exact H.
  - intros s st' s' Hreach.
    apply (@reaches_invariant W driver to_csv num_jobs
             (fun st => page_num st = 1%Z) Hkeeps) in Hreach; [| reflexivity].
    cbn in Hreach. rewrite Hreach. split; [reflexivity | discriminate].
  - intros fuel s why st' s' Hloop.
    apply (@while_loop_invariant W driver to_csv num_jobs
             (fun st => page_num st = 1%Z) Hkeeps) in Hloop; [| reflexivity].
    rewrite Hloop. split; [reflexivity | discriminate].
  - intros fuel st s Hover. apply while_loop_guard_false.
    unfold loop_guard. apply andb_false_iff. right. apply Z.leb_gt. exact Hover.
  - intros fuel st s Hguard. apply while_loop_guard_false. exact Hguard.
Qed.

(** ** The target *)

Lemma len_df_pd_DataFrame (jobs : list dict) : len_df (pd_DataFrame jobs) = len jobs.
Proof. unfold len_df, pd_DataFrame, len. cbn. rewrite length_map. reflexivity. Qed.

(** C3, amended.  For a target that is not negative, whatever line 234
    does:
    - a pass of the [for] that starts within the target ends within it;
    - a pass that starts at the target breaks at once, before the modal
      dismisser and before any card is scrolled to or clicked: the session
      is as it was, and the [for] is over with the records as they are;
    - the number of records is at most the target at every head of the
      loop, where the loop ends, and in the data frame returned. *)
Theorem collected_within_target :
  forall (W : Type) (driver : WebDriver W) (to_csv : list dict -> M W unit) (num_jobs : Z),
    (0 <= num_jobs)%Z ->
    (forall jobs card s f jobs' s',
        (len jobs <= num_jobs)%Z ->
        card_pass num_jobs jobs card s = (Ok (f, jobs'), s') ->
        (len jobs' <= num_jobs)%Z) /\
    (forall jobs card rest (s : Session W),
        (num_jobs <= len jobs)%Z ->
        card_pass num_jobs jobs card s = (Ok (Break, jobs), s) /\
        dispatch num_jobs (card :: rest) jobs s = (Ok jobs, s)) /\
    (forall s st' s',
        reaches to_csv num_jobs (initial_state, s) (st', s') ->
        (len (jobs st') <= num_jobs)%Z) /\
    (forall keyword headless verbose fuel s why st' s',
        collect to_csv keyword num_jobs headless verbose fuel s
        = (Ok (Some (why, st')), s') ->
        (len (jobs st') <= num_jobs)%Z) /\
    (forall keyword headless verbose fuel s df s',
        get_jobs_with to_csv keyword num_jobs headless verbose fuel s
        = (Ok (Some df), s') ->
        (len_df df <= num_jobs)%Z).
Proof.
  intros W driver to_csv num_jobs Htarget.
  assert (Hkeeps : forall st s r s',
             (len (jobs st) <= num_jobs)%Z ->
             loop_body to_csv num_jobs st s = (Ok r, s') ->
             (len (jobs (pass_state r)) <= num_jobs)%Z).
  { intros st s r s' Hle Hbody. apply loop_body_state in Hbody.
    destruct Hbody as (_ & H & _). auto. }
  assert (Hcollect : forall keyword headless verbose fuel s why st' s',
             collect to_csv keyword num_jobs headless verbose fuel s
             = (Ok (Some (why, st')), s') ->
             (len (jobs st') <= num_jobs)%Z).
  { intros keyword headless verbose fuel s why st' s' H. unfold collect in H.
    apply bind_Ok_inv in H. destruct H as (h & s0 & _ & H).
    apply (@while_loop_invariant W driver to_csv num_jobs
             (fun st => (len (jobs st) <= num_jobs)%Z) Hkeeps) in H;
      [exact H | exact Htarget]. }
  split; [| split; [| split; [| split]]].
  - intros jobs card s f jobs' s' Hle Hpass. apply card_pass_result in Hpass.
    destruct Hpass as [(_ & -> & _) | (_ & Hlt & [-> | [job_data ->]])];
      [exact Hle | exact Hle |].
    rewrite len_app. cbn. lia.
  - intros jobs card rest s Hat.
    pose proof (@card_pass_at_target W driver num_jobs jobs card s Hat) as Hpass.
    split; [exact Hpass |].
    cbn [dispatch]. unfold bind. rewrite Hpass. reflexivity.
  - intros s st' s' Hreach.
    apply (@reaches_invariant W driver to_csv num_jobs
             (fun st => (len (jobs st) <= num_jobs)%Z) Hkeeps) in Hreach;
      [exact Hreach | exact Htarget].
  - exact Hcollect.
  - intros keyword headless verbose fuel s df s' H. unfold get_jobs_with in H.
    apply bind_Ok_inv in H. destruct H as (r & s1 & Hr & H).
    destruct r as [[why st']|]; [| discriminate H].
    inversion H. subst. rewrite len_df_pd_DataFrame. eapply Hcollect; eauto.
Qed.

(** ** No listings *)

(** C8. Whatever line 234 does: when the wait for a listing element at
    the head of a pass times out, the pass leaves the loop at line 152
    ([NoListings]) with the loop variables as they were, and the loop ends
    there.  On the first page, that is when the wait that follows
    [open_search] times out in a run with a positive target, the run
    returns the empty data frame: no record was collected. *)
Theorem no_listings_ends_the_run :
  forall (W : Type) (driver : WebDriver W) (to_csv : list dict -> M W unit) (num_jobs : Z),
    (forall st s s1,
        perform (UntilPresence 10 CSS_SELECTOR listing_selector) s
        = (Raise TimeoutException, s1) ->
        loop_body to_csv num_jobs st s = (Ok (Stop NoListings st), s1) /\
        (loop_guard num_jobs st = true ->
         forall fuel,
           while_loop to_csv num_jobs (S fuel) st s = (Ok (Some (NoListings, st)), s1))) /\
    (forall keyword headless verbose fuel s h s0 s1,
        (0 < num_jobs)%Z ->
        open_search keyword headless s = (Ok h, s0) ->
        perform (UntilPresence 10 CSS_SELECTOR listing_selector) s0
        = (Raise TimeoutException, s1) ->
        collect to_csv keyword num_jobs headless verbose (S fuel) s
        = (Ok (Some (NoListings, initial_state)), s1) /\
        jobs initial_state = [] /\
        get_jobs_with to_csv keyword num_jobs headless verbose (S fuel) s
        = (Ok (Some (mkDataFrame [] [])), s1)).
Proof.
  intros W driver to_csv num_jobs.
  assert (Hbody : forall st s s1,
             perform (UntilPresence 10 CSS_SELECTOR listing_selector) s
             = (Raise TimeoutException, s1) ->
             loop_body to_csv num_jobs st s = (Ok (Stop NoListings st), s1)).
  { intros st s s1 Hwait. unfold loop_body, bind at 1, try_except, bind at 1.
    rewrite Hwait. reflexivity. }
  assert (Hloop : forall st s s1,
             perform (UntilPresence 10 CSS_SELECTOR listing_selector) s
             = (Raise TimeoutException, s1) ->
             loop_guard num_jobs st = true ->
             forall fuel,
               while_loop to_csv num_jobs (S fuel) st s
               = (Ok (Some (NoListings, st)), s1)).
  { intros st s s1 Hwait Hguard fuel. cbn [while_loop]. rewrite Hguard.
    unfold bind. rewrite (Hbody st s s1 Hwait). reflexivity. }
  split.
  - intros st s s1 Hwait. split; [apply Hbody; exact Hwait | apply Hloop; exact Hwait].
  - intros keyword headless verbose fuel s h s0 s1 Hpos Hopen Hwait.
    assert (Hcollect : collect to_csv keyword num_jobs headless verbose (S fuel) s
                       = (Ok (Some (NoListings, initial_state)), s1)).
    { unfold collect, bind. rewrite Hopen. apply Hloop; [exact Hwait |].
      unfold loop_guard. cbn. apply andb_true_iff. split; [| reflexivity].
      apply Z.ltb_lt. exact Hpos. }
    split; [exact Hcollect |]. split; [reflexivity |].
    unfold get_jobs_with, bind. rewrite Hcollect. reflexivity.
Qed.

(** ** Line 234 *)

Section Line_234_facts.
Context {W : Type} {driver : WebDriver W}.

(** With [to_csv] called on the list, a pass of the loop that does not
    raise leaves the loop, at line 152 or 173, the loop variables as they
    were: no pass gets beyond line 234. *)
Lemma loop_body_as_written num_jobs st (s : Session W) r s' :
  loop_body list_to_csv num_jobs st s = (Ok r, s') ->
  r = Stop NoListings st \/ r = Stop NoCards st.
Proof.
  unfold loop_body. intros H.
  apply bind_Ok_inv in H. destruct H as (listed & s0 & _ & H).
  destruct listed; cbn [negb] in H; [| inversion H; auto].
  apply bind_Ok_inv in H. destruct H as (cards0 & s1 & _ & H).
  apply bind_Ok_inv in H. destruct H as (all_job_cards & s2 & _ & H).
  destruct all_job_cards as [|c l]; [inversion H; auto |].
  apply bind_Ok_inv in H. destruct H as (jobs' & s3 & _ & H).
  apply bind_Ok_inv in H. destruct H as (u & s4 & Hcsv & _).
  discriminate Hcsv.
Qed.

(** Where a card is on the page, the pass raises [AttributeError]. *)
Lemma loop_body_raises_at_line_234 num_jobs st (s s0 s1 s2 : Session W) found c l jobs' :
  perform (UntilPresence 10 CSS_SELECTOR listing_selector) s = (Ok found, s0) ->
  perform (FindElements CSS_SELECTOR "li[data-test='jobListing']") s0 = (Ok (c :: l), s1) ->
  dispatch num_jobs (skipn (scraped_card_count st) (c :: l)) (jobs st) s1 = (Ok jobs', s2) ->
  loop_body list_to_csv num_jobs st s = (Raise AttributeError, s2).
Proof.
  intros Hwait Hcards Hdispatch.
  unfold loop_body, bind at 1, try_except, bind at 1. rewrite Hwait.
  cbn [negb ret]. unfold bind at 1. rewrite Hcards.
  unfold bind at 1. cbn [ret]. unfold bind at 1. rewrite Hdispatch.
  reflexivity.
Qed.

(** As written the loop makes one pass at most: with any fuel but none
    it ends or raises, and it ends with no record. *)
Lemma while_loop_as_written num_jobs fuel (s : Session W) r s' :
  while_loop list_to_csv num_jobs (S fuel) initial_state s = (Ok r, s') ->
  exists why, r = Some (why, initial_state).
Proof.
  cbn [while_loop]. destruct (loop_guard num_jobs initial_state).
  - intros H. apply bind_Ok_inv in H. destruct H as (p & s1 & Hp & H).
    apply loop_body_as_written in Hp. destruct Hp as [-> | ->];
      inversion H; eauto.
  - intros H. inversion H. eauto.
Qed.

Lemma get_jobs_as_written keyword num_jobs headless verbose fuel (s : Session W) r s' :
  get_jobs keyword num_jobs headless verbose (S fuel) s = (Ok r, s') ->
  r = Some (mkDataFrame [] []).
Proof.
  unfold get_jobs, get_jobs_with, collect. intros H.
  apply bind_Ok_inv in H. destruct H as (x & s1 & Hx & H).
  apply bind_Ok_inv in Hx. destruct Hx as (h & s0 & _ & Hx).
  apply while_loop_as_written in Hx. destruct Hx as [why ->].
  inversion H. reflexivity.
Qed.

Lemma main_keeps_file fuel : respects (@keeps_file W) (main (S fuel)).
Proof.
  intros s r s'. unfold main, bind.
  destruct (get_jobs "data scientist" 2000 false true (S fuel) s) as [[df|e] s1] eqn:E.
  - assert (Hfile : keeps_file s s1) by (eapply get_jobs_keeps_file; exact E).
    apply get_jobs_as_written in E. subst df. cbn. intros H. inversion H. subst. exact Hfile.
  - intros H. inversion H. subst. eapply get_jobs_keeps_file; eauto.
Qed.

End Line_234_facts.

(** C1, as the code has it.  Line 234 calls [to_csv] on the list [jobs],
    which has no such attribute.  So in every environment [get_jobs]
    leaves the output file as it found it, and so does the whole program:
    when [get_jobs] returns at all it returns no record, and line 327 is
    not reached with any.  On a page with one listing card and a target of
    one, the card is opened and its record built, then the run ends in
    [AttributeError] and no file exists. *)
Theorem page_persist_raises_on_the_list :
  (forall (W : Type) (driver : WebDriver W) keyword num_jobs headless verbose fuel
          (s : Session W),
      keeps_file s (snd (get_jobs keyword num_jobs headless verbose fuel s))) /\
  (forall (W : Type) (driver : WebDriver W) fuel (s : Session W),
      keeps_file s (snd (main (S fuel) s))) /\
  (exists s',
      get_jobs "data scientist" 1 false true 1 (fresh one_card)
      = (Raise AttributeError, s') /\
      clicked_cards (trace s') = [1] /\
      glassdoor_jobs_csv s' = None) /\
  (exists s',
      main 1 (fresh one_card) = (Raise AttributeError, s') /\
      glassdoor_jobs_csv s' = None).
Proof.
  split; [| split; [| split]].
  - intros W driver keyword num_jobs headless verbose fuel s.
    destruct (get_jobs keyword num_jobs headless verbose fuel s) as [r s'] eqn:E.
    eapply get_jobs_keeps_file; eauto.
  - intros W driver fuel s.
    destruct (main (S fuel) s) as [r s'] eqn:E.
    eapply main_keeps_file; eauto.
  - eexists. split; [vm_compute; reflexivity |]. split; vm_compute; reflexivity.
  - eexists. split; vm_compute; reflexivity.
Qed.

(** C6, as the code has it.  On a page with 5 listing cards, a target of
    10 and a 'Show more jobs' button that adds 10 cards, the run opens the
    cards 1 to 5 and then ends in [AttributeError] at line 234: the button
    is never clicked, the page still has 5 cards.  Were line 234 to write
    the data frame, the same run would click the button once, open the
    cards 1 to 10, each once and in order, and return 10 records. *)
Theorem show_more_run_stops_at_line_234 :
  (exists s',
      get_jobs "data scientist" 10 false true 3 (fresh five_then_ten)
      = (Raise AttributeError, s') /\
      clicked_cards (trace s') = [1; 2; 3; 4; 5] /\
      cards (world s') = 5 /\ more (world s') = [10]) /\
  (exists df s',
      get_jobs_with frame_to_csv "data scientist" 10 false true 3 (fresh five_then_ten)
      = (Ok (Some df), s') /\
      clicked_cards (trace s') = [1; 2; 3; 4; 5; 6; 7; 8; 9; 10] /\
      len_df df = 10%Z /\
      cards (world s') = 15 /\ more (world s') = []).
Proof.
  split.
  - eexists. split; [vm_compute; reflexivity |]. repeat split; vm_compute; reflexivity.
  - eexists. eexists. split; [vm_compute; reflexivity |].
    repeat split; vm_compute; reflexivity.
Qed.

(** C3 as stated fails for a negative target: with a target of -1 the
    loop is not entered, the run ends with no record, and 0 is not at
    most -1. *)
Lemma negative_target_is_exceeded :
  exists why st s',
    collect list_to_csv "data scientist" (-1) false true 1 (fresh one_card)
    = (Ok (Some (why, st)), s') /\
    ~ (len (jobs st) <= -1)%Z.
Proof.
  eexists. eexists. eexists. split; [vm_compute; reflexivity |].
  vm_compute. intros H. apply H. reflexivity.
Qed.

(** ** The theorems at work on the simulated sites *)

(** C5 on a description of 600 characters and on one of 6, and on the
    record built from a detail pane whose description has 600. *)
Lemma description_truncated_witness :
  500 < String.length long_description /\
  description_field long_description
  = (substring 0 500 long_description ++ "...")%string /\
  String.length (description_field long_description) = 503 /\
  String.length "A job." <= 500 /\
  description_field "A job." = "A job." /\
  exists job s',
    read_job_data 1000 (fresh long_job) = (Ok job, s') /\
    exists text s0 s1,
      safe_find 1000 (Lst description_locators) "-1" s0 = (Ok text, s1) /\
      dict_get job "Description" = Some (description_field text).
Proof.
  assert (Hlong : 500 < String.length long_description)
    by (apply Nat.ltb_lt; vm_compute; reflexivity).
  assert (Hshort : String.length "A job." <= 500)
    by (apply Nat.leb_le; vm_compute; reflexivity).
  destruct (description_truncated_beyond_500 long_description) as (Hcut & _ & Hstored).
  destruct (description_truncated_beyond_500 "A job.") as (_ & Hkeep & _).
  destruct (Hcut Hlong) as [Heq Hlen].
  split; [exact Hlong |]. split; [exact Heq |]. split; [exact Hlen |].
  split; [exact Hshort |]. split; [exact (Hkeep Hshort) |].
  pose (run := read_job_data 1000 (fresh long_job)).
  assert (Hrun : exists job, run = (Ok job, snd run))
    by (eexists; vm_compute; reflexivity).
  destruct Hrun as [job Hrun]. exists job, (snd run). split; [exact Hrun |].
  exact (Hstored Site site_driver 1000 (fresh long_job) job (snd run) Hrun).
Defined.

(** C2 on the page with 5 cards and a button: after the first pass, that
    clicked 'Show more jobs', the counter is 1; and a loop state with the
    counter at 11 ends the loop at once. *)
Lemma page_counter_witness :
  (exists st1 s1,
      reaches frame_to_csv 10
        (initial_state, snd (open_search "data scientist" false (fresh five_then_ten)))
        (st1, s1) /\
      scraped_card_count st1 = 5 /\
      page_num st1 = 1%Z /\ (page_num st1 <= max_pages)%Z) /\
  (max_pages < page_num (mkLoopState [] 11 0))%Z /\
  while_loop list_to_csv 10 7 (mkLoopState [] 11 0) (fresh five_then_ten)
  = (Ok (Some (PageLimit, mkLoopState [] 11 0)), fresh five_then_ten).
Proof.
  split.
  - assert (Hpass : exists st1 s1,
               reaches frame_to_csv 10
                 (initial_state,
                  snd (open_search "data scientist" false (fresh five_then_ten)))
                 (st1, s1) /\
               scraped_card_count st1 = 5).
    { eexists. eexists. split.
      - eapply reaches_later; [reflexivity | vm_compute; reflexivity | apply reaches_here].
      - reflexivity. }
    destruct Hpass as (st1 & s1 & Hreach & Hcount).
    exists st1, s1. split; [exact Hreach |]. split; [exact Hcount |].
    destruct (@page_counter_bounded_and_checked Site site_driver frame_to_csv 10)
      as (_ & Hheads & _).
    exact (Hheads _ _ _ Hreach).
  - split; [reflexivity |].
    destruct (@page_counter_bounded_and_checked Site site_driver list_to_csv 10)
      as (_ & _ & _ & Hlimit & _).
    apply (Hlimit 7 (mkLoopState [] 11 0) (fresh five_then_ten)). reflexivity.
Defined.

(** C3 (amended) on the page with 5 cards and a button, target 10: the
    data frame returned has at most 10 rows; and with two records at a
    target of 2 the [for] ends at once with the session untouched. *)
Lemma collected_within_target_witness :
  (0 <= 10)%Z /\
  (exists df s',
      get_jobs_with frame_to_csv "data scientist" 10 false true 3 (fresh five_then_ten)
      = (Ok (Some df), s') /\
      (len_df df <= 10)%Z) /\
  (0 <= 2)%Z /\ (2 <= len [@nil (string * string); []])%Z /\
  dispatch 2 [3; 4] [[]; []] (fresh five_then_ten) = (Ok [[]; []], fresh five_then_ten).
Proof.
  assert (H10 : (0 <= 10)%Z) by discriminate.
  assert (H2 : (0 <= 2)%Z) by discriminate.
  assert (Hat : (2 <= len [@nil (string * string); []])%Z) by discriminate.
  split; [exact H10 |]. split; [| split; [exact H2 | split; [exact Hat |]]].
  - pose (run := get_jobs_with frame_to_csv "data scientist" 10 false true 3
                   (fresh five_then_ten)).
    assert (Hrun : exists df, run = (Ok (Some df), snd run))
      by (eexists; vm_compute; reflexivity).
    destruct Hrun as [df Hrun]. exists df, (snd run). split; [exact Hrun |].
    destruct (@collected_within_target Site site_driver frame_to_csv 10 H10)
      as (_ & _ & _ & _ & Hframe).
    exact (Hframe _ _ _ _ _ _ _ Hrun).
  - destruct (@collected_within_target Site site_driver frame_to_csv 2 H2)
      as (_ & Hstop & _).
    exact (proj2 (Hstop [[]; []] 3 [4] (fresh five_then_ten) Hat)).
Defined.

(** C7 on three sites: a page with a 'See more jobs' link and no button
    (the session moves on, the counter goes from 4 to 1 and the card count
    from 2 to 0); a page with a button (the pass ends on the click, the
    link not looked for); a page with neither (the loop is left, after
    both attempts). *)
Lemma full_navigation_witness :
  (exists s',
      continuation [1; 2] (mkLoopState [] 4 2) (fresh two_cards_and_link)
      = (Ok (Again (mkLoopState [] 1 0)), s') /\
      cards (world s') = 3) /\
  (exists s1,
      continuation [1; 2; 3; 4; 5] (mkLoopState [] 1 0) (fresh five_then_ten)
      = (Ok (Again (mkLoopState [] 1 5)), s1) /\
      adds_only not_see_more_search (fresh five_then_ten) s1) /\
  (exists t,
      trace (snd (continuation [1] initial_state (fresh one_card))) = [] ++ t /\
      existsb is_scroll_to_bottom t = true /\
      existsb is_see_more_search t = true).
Proof.
  split; [| split].
  - pose (url := "https://www.glassdoor.com/Job/more-jobs.htm").
    pose (s0 := fresh two_cards_and_link).
    pose (s1 := snd (show_more s0)).
    pose (s2 := snd (perform (FindElement None XPATH see_more_xpath) s1)).
    pose (s3 := snd (perform (GetAttribute 2001 "href") s2)).
    pose (s4 := snd (perform (Get url) s3)).
    assert (Hshow : show_more s0 = (Ok false, s1)) by (vm_compute; reflexivity).
    assert (Hlink : perform (FindElement None XPATH see_more_xpath) s1 = (Ok 2001, s2))
      by (vm_compute; reflexivity).
    assert (Hurl : perform (GetAttribute 2001 "href") s2 = (Ok (Some url), s3))
      by (vm_compute; reflexivity).
    assert (Hne : url <> "") by discriminate.
    assert (Hget : perform (Get url) s3 = (Ok tt, s4)) by (vm_compute; reflexivity).
    destruct (@full_navigation_resets_and_comes_last Site site_driver
                [1; 2] (mkLoopState [] 4 2) s0) as (Hmoves & _).
    destruct (Hmoves s1 2001 s2 url s3 s4 Hshow Hlink Hurl Hne Hget)
      as (s' & Hclose & Hcont).
    exists s'. split; [exact Hcont |].
    assert (Hs' : s' = snd (close_any_modal (snd (sleep 5000 s4))))
      by (rewrite Hclose; reflexivity).
    rewrite Hs'. vm_compute. reflexivity.
  - pose (s0 := fresh five_then_ten).
    pose (s1 := snd (show_more s0)).
    assert (Hshow : show_more s0 = (Ok true, s1)) by (vm_compute; reflexivity).
    destruct (@full_navigation_resets_and_comes_last Site site_driver
                [1; 2; 3; 4; 5] (mkLoopState [] 1 0) s0) as (_ & Hclicks & _).
    exists s1. exact (Hclicks s1 Hshow).
  - pose (s0 := fresh one_card).
    pose (s' := snd (continuation [1] initial_state s0)).
    assert (Hstop : continuation [1] initial_state s0 = (Ok (Stop NoLink initial_state), s'))
      by (vm_compute; reflexivity).
    destruct (@full_navigation_resets_and_comes_last Site site_driver
                [1] initial_state s0) as (_ & _ & _ & Hboth & _).
    exact (proj2 (Hboth NoLink initial_state s' Hstop)).
Defined.

(** C8 on a page without listings, target 5: the wait after
    [open_search] times out and the run returns the empty data frame,
    having left the loop at line 152. *)
Lemma no_listings_witness :
  (0 < 5)%Z /\
  exists s1,
    collect list_to_csv "data scientist" 5 false true 1 (fresh no_listings)
    = (Ok (Some (NoListings, initial_state)), s1) /\
    get_jobs "data scientist" 5 false true 1 (fresh no_listings)
    = (Ok (Some (mkDataFrame [] [])), s1).
Proof.
  assert (Hpos : (0 < 5)%Z) by reflexivity.
  split; [exact Hpos |].
  pose (s0 := snd (open_search "data scientist" false (fresh no_listings))).
  pose (s1 := snd (perform (UntilPresence 10 CSS_SELECTOR listing_selector) s0)).
  assert (Hopen : open_search "data scientist" false (fresh no_listings) = (Ok false, s0))
    by (vm_compute; reflexivity).
  assert (Hwait : perform (UntilPresence 10 CSS_SELECTOR listing_selector) s0
                  = (Raise TimeoutException, s1))
    by (vm_compute; reflexivity).
  destruct (@no_listings_ends_the_run Site site_driver list_to_csv 5) as (_ & Hfirst).
  destruct (Hfirst "data scientist" false true 0 (fresh no_listings) false s0 s1
              Hpos Hopen Hwait) as (Hcollect & _ & Hrun).
  exists s1. split; [exact Hcollect | exact Hrun].
Defined.

(** [safe_find] on the simulated detail pane: the title is found under
    the third locator and trimmed; the location under none. *)
Example safe_find_title :
  fst (safe_find 1000
         (Lst ["h1.heading_Level1__w42c9"; "h1[id*='jd-job-title-']"; "div[data-test='jobTitle']"])
         "-1" (fresh one_card))
  = Ok "Data Scientist".
Proof. vm_compute. reflexivity. Qed.

Example safe_find_location :
  fst (safe_find 1000 (Lst ["div[data-test='location']"]) "-1" (fresh one_card)) = Ok "-1".
Proof. vm_compute. reflexivity. Qed.

(** [close_any_modal] with an overlay whose close button answers to the
    second locator: two searches, the overlay is closed, nothing more is
    looked for.  Without an overlay all five locators are tried. *)
Example close_any_modal_overlay :
  let s' := snd (close_any_modal (fresh overlay_open)) in
  searched (trace s') = ["button[data-test='close-modal']"; "button[aria-label='Close']"] /\
  modal (world s') = false.
Proof. split; vm_compute; reflexivity. Qed.

Example close_any_modal_nothing_open :
  searched (trace (snd (close_any_modal (fresh one_card)))) = close_selectors.
Proof. vm_compute. reflexivity. Qed.

(** [strip] removes the white space at both ends only. *)
Example strip_inner_space : strip "  Data  Scientist  " = "Data  Scientist".
Proof. reflexivity. Qed.

(** * Further properties of the code *)

(** ** Trimmed text *)

Lemma rstrip_idempotent (s : string) : rstrip (rstrip s) = rstrip s.
Proof.
  induction s as [|c r IH]; [reflexivity |].
  cbn [rstrip]. destruct (rstrip r) as [|c' r'] eqn:E.
  - destruct (isspace c) eqn:Hc; [reflexivity |].
    cbn [rstrip]. rewrite Hc. reflexivity.
  - cbn [rstrip] in IH |- *. rewrite IH. reflexivity.
Qed.

Lemma lstrip_head (s : string) :
  match lstrip s with EmptyString => True | String c _ => isspace c = false end.
Proof.
  induction s as [|c r IH]; [exact I |].
  cbn [lstrip]. destruct (isspace c) eqn:Hc; [exact IH | exact Hc].
Qed.

Lemma lstrip_rstrip_head (s : string) :
  match s with EmptyString => True | String c _ => isspace c = false end ->
  lstrip (rstrip s) = rstrip s.
Proof.
  destruct s as [|c r]; [reflexivity |]. intros Hc.
  cbn [rstrip]. destruct (rstrip r); [rewrite Hc |]; cbn [lstrip]; rewrite Hc; reflexivity.
Qed.

Lemma strip_idempotent (s : string) : strip (strip s) = strip s.
Proof.
  unfold strip. rewrite (lstrip_rstrip_head (lstrip s) (lstrip_head s)).
  apply rstrip_idempotent.
Qed.

Section Field_facts.
Context {W : Type} {driver : WebDriver W}.

Lemma first_match_trimmed root locators (s : Session W) text s' :
  first_match root locators s (Some text) s' -> text <> "" /\ trimmed text.
Proof.
  intros H. remember (Some text) as r eqn:Hr.
  induction H as [s | locator rest s element s1 raw s2 _ _ Hne
                  | locator rest s s1 r s2 _ _ IH].
  - discriminate Hr.
  - inversion Hr. subst. split; [exact Hne | apply strip_idempotent].
  - exact (IH Hr).
Qed.

Lemma safe_find_result root l default (s : Session W) :
  exists text s',
    safe_find root l default s = (Ok text, s') /\
    (text = default \/ (text <> "" /\ trimmed text)).
Proof.
  unfold safe_find.
  destruct (safe_find_for_first_match root default
              (match l with Str x => [x] | Lst x => x end) s) as (r & s' & Hfirst & H).
  destruct r as [text|].
  - exists text, s'. split; [exact H |]. right. eapply first_match_trimmed; eauto.
  - exists default, s'. split; [exact H | left; reflexivity].
Qed.

Lemma safe_find_sentinel_nonempty root l (s : Session W) text s' :
  safe_find root l "-1" s = (Ok text, s') -> text <> "" /\ trimmed text.
Proof.
  intros H. destruct (safe_find_result root l "-1" s) as (t & s1 & H1 & Ht).
  rewrite H in H1. inversion H1. subst t s1.
  destruct Ht as [-> | Ht]; [split; [discriminate | reflexivity] | exact Ht].
Qed.

Lemma bind_returns A B (m : M W A) (k : A -> M W B) :
  (forall s, exists a s', m s = (Ok a, s')) ->
  (forall a s, exists b s', k a s = (Ok b, s')) ->
  forall s, exists b s', bind m k s = (Ok b, s').
Proof.
  intros Hm Hk s. destruct (Hm s) as (a & s1 & H1).
  unfold bind. rewrite H1. apply Hk.
Qed.

Lemma read_job_data_returns pane (s : Session W) :
  exists job s', read_job_data pane s = (Ok job, s').
Proof.
  revert s. unfold read_job_data.
  repeat (apply bind_returns; [intros s; apply safe_find_returns | intros ?]).
  intros s. eexists. eexists. reflexivity.
Qed.

Lemma description_field_length (d : string) : String.length (description_field d) <= 503.
Proof.
  unfold description_field.
  destruct (500 <? Z.of_nat (String.length d))%Z eqn:E.
  - apply Z.ltb_lt in E. rewrite length_append, length_substring_0 by lia. cbn. lia.
  - apply Z.ltb_ge in E. lia.
Qed.

Lemma description_field_nonempty (d : string) : d <> "" -> description_field d <> "".
Proof.
  unfold description_field. intros Hd.
  destruct (500 <? Z.of_nat (String.length d))%Z eqn:E; [| exact Hd].
  apply Z.ltb_lt in E. intros H.
  apply (f_equal String.length) in H.
  rewrite length_append, length_substring_0 in H by lia. discriminate H.
Qed.

(** The shape of every record: the 14 keys, no empty value, a bounded
    description. *)
Lemma read_job_data_shape pane (s : Session W) job s' :
  read_job_data pane s = (Ok job, s') ->
  map fst job = job_columns /\
  Forall (fun kv => snd kv <> "") job /\
  exists d, dict_get job "Description" = Some d /\ String.length d <= 503.
Proof.
  unfold read_job_data. intros H.
  repeat (apply bind_Ok_inv in H; destruct H as (? & ? & ? & H)).
  inversion H. subst. clear H.
  repeat match goal with
         | Hf : safe_find _ _ "-1" _ = (Ok _, _) |- _ =>
             apply safe_find_sentinel_nonempty in Hf; destruct Hf as [Hf _]
         end.
  split; [reflexivity |]. split.
  - repeat (apply Forall_cons; [cbn; auto using description_field_nonempty |]).
    apply Forall_nil.
  - eexists. split; [reflexivity | apply description_field_length].
Qed.

End Field_facts.

(** X1. Whatever the element, the locators and the default, [safe_find]
    returns a text that is the default or else is not empty and has no
    white space at either end ([strip] leaves it as it is). *)
Theorem safe_find_text_is_trimmed :
  forall (W : Type) (driver : WebDriver W) (root : WebElement) (l : str_or_list)
         (default : string) (s : Session W),
  exists text s',
    safe_find root l default s = (Ok text, s') /\
    (text = default \/ (text <> "" /\ strip text = text)).
Proof. intros W driver root l default s. apply safe_find_result. Qed.

(** X2. From any detail pane, in any session, lines 206-228 build a
    record and do not raise: its keys are the 14 column names in the
    order of line 221, no value is the empty string (a field that is not
    found holds "-1"), and the description has at most 503 characters. *)
Theorem every_record_has_the_14_fields :
  forall (W : Type) (driver : WebDriver W) (detail_pane : WebElement) (s : Session W),
  exists job s',
    read_job_data detail_pane s = (Ok job, s') /\
    map fst job = job_columns /\
    List.length job = 14 /\
    Forall (fun kv => snd kv <> "") job /\
    exists d, dict_get job "Description" = Some d /\ String.length d <= 503.
Proof.
  intros W driver pane s.
  destruct (read_job_data_returns pane s) as (job & s' & H).
  exists job, s'. split; [exact H |].
  destruct (read_job_data_shape _ _ H) as (Hkeys & Hvalues & Hd).
  split; [exact Hkeys |]. split; [| split; [exact Hvalues | exact Hd]].
  rewrite <- (length_map fst), Hkeys. reflexivity.
Qed.

(** ** What the helpers touch *)

Section Footprint_facts.
Context {W : Type} {driver : WebDriver W}.

Lemma find_by_selector_trace root selector (s : Session W) r s1 :
  find_by_selector root selector s = (r, s1) ->
  exists by_, trace s1 = trace s ++ [Called (FindElement (Some root) by_ selector)] /\
              glassdoor_jobs_csv s1 = glassdoor_jobs_csv s.
Proof.
  unfold find_by_selector.
  destruct (startswith selector ["//"; ".//"]); intros H;
    apply perform_trace in H; eauto.
Qed.

Lemma safe_find_for_footprint root default locators : forall s : Session W,
  exists t,
    trace (snd (safe_find_for root locators default s)) = trace s ++ t /\
    forallb (is_lookup_under root) t = true /\
    List.length t <= 2 * List.length locators /\
    glassdoor_jobs_csv (snd (safe_find_for root locators default s)) = glassdoor_jobs_csv s.
Proof.
  induction locators as [|locator rest IH]; intros s.
  - exists []. cbn. rewrite app_nil_r. auto.
  - cbn [safe_find_for]. unfold bind at 1, try_except, safe_find_try, bind.
    destruct (find_by_selector root locator s) as [[element|e] s1] eqn:Hfind;
      apply find_by_selector_trace in Hfind; destruct Hfind as (by_ & Hfind & Hfile1).
    + destruct (perform (Text element) s1) as [[raw|e] s2] eqn:Htext;
        apply perform_trace in Htext; destruct Htext as [Htext Hfile2].
      * destruct (truthy (strip raw)).
        -- exists [Called (FindElement (Some root) by_ locator); Called (Text element)].
           cbn [snd ret]. rewrite Htext, Hfind, <- app_assoc.
           cbn. rewrite Nat.eqb_refl. repeat split; [lia | congruence].
        -- destruct (IH s2) as (t & Ht & Hall & Hlen & Hfile).
           exists ([Called (FindElement (Some root) by_ locator); Called (Text element)] ++ t).
           cbn [ret]. rewrite Ht, Htext, Hfind, <- !app_assoc.
           cbn. rewrite Nat.eqb_refl, Hall. repeat split; [lia | congruence].
      * destruct (IH s2) as (t & Ht & Hall & Hlen & Hfile).
        exists ([Called (FindElement (Some root) by_ locator); Called (Text element)] ++ t).
        cbn [any_exception ret]. rewrite Ht, Htext, Hfind, <- !app_assoc.
        cbn. rewrite Nat.eqb_refl, Hall. repeat split; [lia | congruence].
    + destruct (IH s1) as (t & Ht & Hall & Hlen & Hfile).
      exists ([Called (FindElement (Some root) by_ locator)] ++ t).
      cbn [any_exception ret]. rewrite Ht, Hfind, <- !app_assoc.
      cbn. rewrite Nat.eqb_refl, Hall. repeat split; [lia | congruence].
Qed.

Lemma close_any_modal_for_footprint locators : forall s : Session W,
  exists t,
    trace (snd (close_any_modal_for locators s)) = trace s ++ t /\
    forallb is_close_event t = true /\
    List.length t <= 2 * List.length locators + 1 /\
    List.length (filter is_click t) <= List.length locators /\
    glassdoor_jobs_csv (snd (close_any_modal_for locators s)) = glassdoor_jobs_csv s.
Proof.
  induction locators as [|locator rest IH]; intros s.
  - exists []. cbn. rewrite app_nil_r. auto.
  - cbn [close_any_modal_for]. unfold bind at 1, try_except, close_try, bind.
    destruct (perform (FindElement None CSS_SELECTOR locator) s)
      as [[close_btn|e] s1] eqn:Hfind;
      apply perform_trace in Hfind; destruct Hfind as [Hfind Hfile1].
    + destruct (perform (Click close_btn) s1) as [[[]|e] s2] eqn:Hclick;
        apply perform_trace in Hclick; destruct Hclick as [Hclick Hfile2].
      * exists [Called (FindElement None CSS_SELECTOR locator);
                Called (Click close_btn); Slept 1000].
        cbn [snd ret sleep trace glassdoor_jobs_csv].
        rewrite Hclick, Hfind, <- !app_assoc.
        cbn. repeat split; [lia | lia | congruence].
      * destruct (IH s2) as (t & Ht & Hall & Hlen & Hclicks & Hfile).
        exists ([Called (FindElement None CSS_SELECTOR locator); Called (Click close_btn)] ++ t).
        cbn [any_exception ret]. rewrite Ht, Hclick, Hfind, <- !app_assoc.
        cbn. rewrite Hall. repeat split; [lia | lia | congruence].
    + destruct (IH s1) as (t & Ht & Hall & Hlen & Hclicks & Hfile).
      exists ([Called (FindElement None CSS_SELECTOR locator)] ++ t).
      cbn [any_exception ret]. rewrite Ht, Hfind, <- !app_assoc.
      cbn. rewrite Hall. repeat split; [lia | lia | congruence].
Qed.

End Footprint_facts.

(** X3. [safe_find] only reads: over a list of locators it makes no call
    but look-ups below the element it was given and reads of an element's
    text, two calls at most for each locator; it does not click, load a
    page, run a script or pause, and it leaves the output file alone. *)
Theorem safe_find_only_reads :
  forall (W : Type) (driver : WebDriver W) (root : WebElement) (locators : list string)
         (default : string) (s : Session W),
  exists t,
    trace (snd (safe_find root (Lst locators) default s)) = trace s ++ t /\
    forallb (is_lookup_under root) t = true /\
    List.length t <= 2 * List.length locators /\
    glassdoor_jobs_csv (snd (safe_find root (Lst locators) default s))
    = glassdoor_jobs_csv s.
Proof.
  intros W driver root locators default s. unfold safe_find.
  apply safe_find_for_footprint.
Qed.

(** X4. [close_any_modal] makes no call but page-wide searches by CSS
    selector and clicks, and pauses for one second at a time: 11 events at
    most and 5 clicks at most; it loads no page, runs no script, and leaves
    the output file alone. *)
Theorem close_any_modal_only_searches_and_clicks :
  forall (W : Type) (driver : WebDriver W) (s : Session W),
  exists t,
    trace (snd (close_any_modal s)) = trace s ++ t /\
    forallb is_close_event t = true /\
    List.length t <= 11 /\
    List.length (filter is_click t) <= 5 /\
    glassdoor_jobs_csv (snd (close_any_modal s)) = glassdoor_jobs_csv s.
Proof.
  intros W driver s.
  destruct (close_any_modal_for_footprint close_selectors s) as (t & Ht & Hall & Hlen & Hc & Hf).
  assert (Hsame : snd (close_any_modal s) = snd (close_any_modal_for close_selectors s)).
  { unfold close_any_modal, try_except.
    destruct (close_any_modal_for close_selectors s) as [[u|e] s1]; reflexivity. }
  rewrite Hsame. exists t. cbn in Hlen, Hc. auto.
Qed.

(** ** How a run ends *)

Section Exit_facts.
Context {W : Type} {driver : WebDriver W}.

Lemma continuation_exit cards st (s : Session W) why st' s' :
  continuation cards st s = (Ok (Stop why st'), s') ->
  st' = st /\ (why = NoContinuation \/ why = NoLink \/ why = NavigationError).
Proof.
  intros H.
  destruct (show_more_returns s) as (clicked & s1 & Hshow).
  unfold continuation, bind at 1 in H. rewrite Hshow in H.
  destruct clicked; [discriminate H |].
  unfold try_except, bind in H.
  destruct (see_more_try s1) as [[[|]|e] s2].
  - discriminate H.
  - inversion H. auto.
  - destruct (is_NoSuchElementException e); cbn in H; inversion H; auto.
Qed.

Section Exit_loop.
Variable to_csv : list dict -> M W unit.
Variable num_jobs : Z.

(** Where a pass leaves the loop, and with what. *)
Lemma loop_body_exit st (s : Session W) why st' s' :
  loop_body to_csv num_jobs st s = (Ok (Stop why st'), s') ->
  ((why = NoListings \/ why = NoCards) /\ st' = st) \/
  ((why = NoContinuation \/ why = NoLink \/ why = NavigationError) /\
   (len (jobs st') < num_jobs)%Z).
Proof.
  unfold loop_body. intros H.
  apply bind_Ok_inv in H. destruct H as (listed & s0 & _ & H).
  destruct listed; cbn [negb] in H; [| inversion H; auto].
  apply bind_Ok_inv in H. destruct H as (cards0 & s1 & _ & H).
  apply bind_Ok_inv in H. destruct H as (all_job_cards & s2 & _ & H).
  destruct all_job_cards as [|c l]; [inversion H; auto |].
  apply bind_Ok_inv in H. destruct H as (jobs' & s3 & _ & H).
  apply bind_Ok_inv in H. destruct H as (_ & s4 & _ & H).
  destruct (len jobs' <? num_jobs)%Z eqn:Hlt; [| discriminate H].
  apply continuation_exit in H. destruct H as [-> Hwhy].
  right. split; [exact Hwhy |]. apply Z.ltb_lt in Hlt. exact Hlt.
Qed.

Lemma while_loop_exit fuel : forall st (s : Session W) why st' s',
  page_num st = 1%Z ->
  while_loop to_csv num_jobs fuel st s = (Ok (Some (why, st')), s') ->
  why <> PageLimit /\
  (why = TargetReached -> (num_jobs <= len (jobs st'))%Z) /\
  (why <> TargetReached -> (len (jobs st') < num_jobs)%Z).
Proof.
  induction fuel as [|fuel IH]; intros st s why st' s' Hpage H;
    cbn [while_loop] in H; destruct (loop_guard num_jobs st) eqn:Hguard;
    try discriminate H.
  - inversion H. subst. clear H.
    unfold loop_guard in Hguard. rewrite Hpage in Hguard.
    rewrite andb_true_r in Hguard. unfold guard_exit. rewrite Hguard.
    apply Z.ltb_ge in Hguard.
    split; [discriminate |]. split; [auto | intros Hne; contradiction Hne; reflexivity].
  - apply bind_Ok_inv in H. destruct H as (r & s1 & Hr & H).
    destruct r as [st1|why1 st1].
    + apply (IH st1 s1 why st' s'); [| exact H].
      apply loop_body_state in Hr. cbn in Hr.
      destruct Hr as (_ & _ & [Hp | Hp]); congruence.
    + inversion H. subst. clear H.
      unfold loop_guard in Hguard. apply andb_true_iff in Hguard.
      destruct Hguard as [Hlt _]. apply Z.ltb_lt in Hlt.
      apply loop_body_exit in Hr.
      destruct Hr as [[Hwhy ->] | [Hwhy Hlen]].
      * split; [destruct Hwhy; subst; discriminate |].
        split; [destruct Hwhy; subst; discriminate | auto].
      * split; [destruct Hwhy as [-> | [-> | ->]]; discriminate |].
        split; [destruct Hwhy as [-> | [-> | ->]]; discriminate | auto].
  - inversion H. subst. clear H.
    unfold loop_guard in Hguard. rewrite Hpage in Hguard.
    rewrite andb_true_r in Hguard. unfold guard_exit. rewrite Hguard.
    apply Z.ltb_ge in Hguard.
    split; [discriminate |]. split; [auto | intros Hne; contradiction Hne; reflexivity].
Qed.

Lemma while_loop_appends fuel : forall st (s : Session W) why st' s',
  while_loop to_csv num_jobs fuel st s = (Ok (Some (why, st')), s') ->
  exists added, jobs st' = jobs st ++ added.
Proof.
  intros st s why st' s' H.
  apply (@while_loop_invariant W driver to_csv num_jobs
           (fun st0 => exists added, jobs st0 = jobs st ++ added)) in H.
  - exact H.
  - intros st0 s0 r s1 [added0 H0] Hbody. apply loop_body_state in Hbody.
    destruct Hbody as ([added1 H1] & _). exists (added0 ++ added1).
    rewrite H1, H0, app_assoc. reflexivity.
  - exists []. symmetry. apply app_nil_r.
Qed.

End Exit_loop.

(** As written a second pass is never made: more fuel changes nothing. *)
Lemma while_loop_as_written_one_pass num_jobs fuel st (s : Session W) :
  while_loop list_to_csv num_jobs (S fuel) st s = while_loop list_to_csv num_jobs 1 st s.
Proof.
  cbn [while_loop]. destruct (loop_guard num_jobs st); [| reflexivity].
  unfold bind. destruct (loop_body list_to_csv num_jobs st s) as [[r|e] s1] eqn:Hr;
    [| reflexivity].
  apply loop_body_as_written in Hr. destruct Hr as [-> | ->]; reflexivity.
Qed.

End Exit_facts.

(** X5. The page limit never ends a run.  Whatever line 234 does,
    whatever the target and the environment, when the loop of a run ends
    it is not because [page_num] exceeded [max_pages]: [page_num] is 1
    throughout, so the second half of the condition of the [while] is
    never the one that fails. *)
Theorem page_limit_never_ends_a_run :
  forall (W : Type) (driver : WebDriver W) (to_csv : list dict -> M W unit)
         (keyword : string) (num_jobs : Z) (headless verbose : bool) (fuel : nat)
         (s : Session W) why st' s',
    collect to_csv keyword num_jobs headless verbose fuel s = (Ok (Some (why, st')), s') ->
    why <> PageLimit /\ page_num st' = 1%Z.
Proof.
  intros W driver to_csv keyword num_jobs headless verbose fuel s why st' s' H.
  unfold collect in H. apply bind_Ok_inv in H. destruct H as (h & s0 & _ & H).
  split.
  - apply while_loop_exit in H; [apply H | reflexivity].
  - apply (@while_loop_invariant W driver to_csv num_jobs
             (fun st => page_num st = 1%Z)) in H; [exact H | | reflexivity].
    intros st s1 r s2 Hp Hbody. apply loop_body_state in Hbody.
    destruct Hbody as (_ & _ & [Hq | Hq]); congruence.
Qed.

(** X6. The place where the loop ends tells the count.  Whatever line
    234 does, for a target that is not negative: a run that ends because
    the target is reached holds exactly [num_jobs] records, and a run that
    ends for any other reason (no listings, no cards, no way to go on)
    holds fewer. *)
Theorem exit_tells_the_count :
  forall (W : Type) (driver : WebDriver W) (to_csv : list dict -> M W unit)
         (keyword : string) (num_jobs : Z) (headless verbose : bool) (fuel : nat)
         (s : Session W) why st' s',
    (0 <= num_jobs)%Z ->
    collect to_csv keyword num_jobs headless verbose fuel s = (Ok (Some (why, st')), s') ->
    (why = TargetReached -> len (jobs st') = num_jobs) /\
    (why <> TargetReached -> (len (jobs st') < num_jobs)%Z).
Proof.
  intros W driver to_csv keyword num_jobs headless verbose fuel s why st' s' Hpos H.
  unfold collect in H. apply bind_Ok_inv in H. destruct H as (h & s0 & _ & H).
  assert (Hle : (len (jobs st') <= num_jobs)%Z).
  { apply (@while_loop_invariant W driver to_csv num_jobs
             (fun st => (len (jobs st) <= num_jobs)%Z)) in H; [exact H | | exact Hpos].
    intros st s1 r s2 Hp Hbody. apply loop_body_state in Hbody.
    destruct Hbody as (_ & Hb & _). auto. }
  apply while_loop_exit in H; [| reflexivity].
  destruct H as (_ & Hreached & Hother).
  split; [intros Hwhy; specialize (Hreached Hwhy); lia | exact Hother].
Qed.

(** X7. Records are only appended.  Whatever line 234 does, a pass of
    the loop ends with the records it began with followed by those it
    added, and so does the whole loop: no record is changed, dropped or
    moved once it is in the list. *)
Theorem records_are_only_appended :
  forall (W : Type) (driver : WebDriver W) (to_csv : list dict -> M W unit) (num_jobs : Z),
    (forall st s r s',
        loop_body to_csv num_jobs st s = (Ok r, s') ->
        exists added, jobs (pass_state r) = jobs st ++ added) /\
    (forall fuel st s why st' s',
        while_loop to_csv num_jobs fuel st s = (Ok (Some (why, st')), s') ->
        exists added, jobs st' = jobs st ++ added).
Proof.
  intros W driver to_csv num_jobs. split.
  - intros st s r s' H. apply loop_body_state in H. apply H.
  - intros fuel st s why st' s' H. eapply while_loop_appends; eauto.
Qed.

(** X8. As written, one pass is all a run makes: the result of
    [get_jobs] does not depend on how many further passes the loop is
    allowed, and when [get_jobs] returns instead of raising it returns the
    empty data frame. *)
Theorem get_jobs_makes_one_pass :
  forall (W : Type) (driver : WebDriver W) (keyword : string) (num_jobs : Z)
         (headless verbose : bool) (fuel : nat) (s : Session W),
    get_jobs keyword num_jobs headless verbose (S fuel) s
    = get_jobs keyword num_jobs headless verbose 1 s /\
    (forall r s',
        get_jobs keyword num_jobs headless verbose (S fuel) s = (Ok r, s') ->
        r = Some (mkDataFrame [] [])).
Proof.
  intros W driver keyword num_jobs headless verbose fuel s. split.
  - unfold get_jobs, get_jobs_with, collect, bind.
    destruct (open_search keyword headless s) as [[h|e] s0]; [| reflexivity].
    rewrite while_loop_as_written_one_pass. reflexivity.
  - intros r s' H. eapply get_jobs_as_written; eauto.
Qed.

(** ** The scan of a page *)

(** X9. No cards.  Whatever line 234 does: when the wait finds a listing
    element but both queries of lines 155-157 come back empty, the pass
    leaves the loop at line 173 with the loop variables as they were,
    line 234 not reached, and the loop ends there. *)
Theorem no_cards_ends_the_run :
  forall (W : Type) (driver : WebDriver W) (to_csv : list dict -> M W unit) (num_jobs : Z)
         (st : LoopState) (s : Session W) found s0 s1 s2,
    perform (UntilPresence 10 CSS_SELECTOR listing_selector) s = (Ok found, s0) ->
    perform (FindElements CSS_SELECTOR "li[data-test='jobListing']") s0 = (Ok [], s1) ->
    perform (FindElements CSS_SELECTOR
               "li.JobsList_jobListItem__wjThv, div[data-test='job-listing']") s1
    = (Ok [], s2) ->
    loop_body to_csv num_jobs st s = (Ok (Stop NoCards st), s2) /\
    (loop_guard num_jobs st = true ->
     forall fuel,
       while_loop to_csv num_jobs (S fuel) st s = (Ok (Some (NoCards, st)), s2)).
Proof.
  intros W driver to_csv num_jobs st s found s0 s1 s2 Hwait Hfirst Hsecond.
  assert (Hbody : loop_body to_csv num_jobs st s = (Ok (Stop NoCards st), s2)).
  { unfold loop_body, bind at 1, try_except, bind at 1. rewrite Hwait.
    cbn [negb ret]. unfold bind at 1. rewrite Hfirst.
    unfold bind at 1. rewrite Hsecond. reflexivity. }
  split; [exact Hbody |].
  intros Hguard fuel. cbn [while_loop]. rewrite Hguard.
  unfold bind. rewrite Hbody. reflexivity.
Qed.

(** X10. Only a timeout of the wait for listings is handled.  Whatever
    line 234 does: when that wait raises any other exception, or the query
    for the cards raises, the pass raises it, the loop raises it, and on
    the first page [get_jobs] raises it: the run aborts and returns
    nothing. *)
Theorem scan_errors_abort_the_run :
  forall (W : Type) (driver : WebDriver W) (to_csv : list dict -> M W unit) (num_jobs : Z),
    (forall st (s : Session W) e s0,
        perform (UntilPresence 10 CSS_SELECTOR listing_selector) s = (Raise e, s0) ->
        is_TimeoutException e = false ->
        loop_body to_csv num_jobs st s = (Raise e, s0)) /\
    (forall st (s : Session W) found s0 e s1,
        perform (UntilPresence 10 CSS_SELECTOR listing_selector) s = (Ok found, s0) ->
        perform (FindElements CSS_SELECTOR "li[data-test='jobListing']") s0 = (Raise e, s1) ->
        loop_body to_csv num_jobs st s = (Raise e, s1)) /\
    (forall keyword headless verbose fuel (s : Session W) h s0 e s1,
        (0 < num_jobs)%Z ->
        open_search keyword headless s = (Ok h, s0) ->
        loop_body to_csv num_jobs initial_state s0 = (Raise e, s1) ->
        get_jobs_with to_csv keyword num_jobs headless verbose (S fuel) s = (Raise e, s1)).
Proof.
  intros W driver to_csv num_jobs. split; [| split].
  - intros st s e s0 Hwait He.
    unfold loop_body, bind at 1, try_except, bind at 1. rewrite Hwait, He. reflexivity.
  - intros st s found s0 e s1 Hwait Hfind.
    unfold loop_body, bind at 1, try_except, bind at 1. rewrite Hwait.
    cbn [negb ret]. unfold bind at 1. rewrite Hfind. reflexivity.
  - intros keyword headless verbose fuel s h s0 e s1 Hpos Hopen Hbody.
    unfold get_jobs_with, collect, bind. rewrite Hopen.
    cbn [while_loop].
    assert (Hguard : loop_guard num_jobs initial_state = true).
    { unfold loop_guard. cbn. apply andb_true_iff. split; [| reflexivity].
      apply Z.ltb_lt. exact Hpos. }
    rewrite Hguard. unfold bind. rewrite Hbody. reflexivity.
Qed.

(** ** One card *)

Section Card_facts.
Context {W : Type} {driver : WebDriver W}.

Lemma scrolled_app (t1 t2 : list Event) : scrolled (t1 ++ t2) = scrolled t1 ++ scrolled t2.
Proof. unfold scrolled. apply flat_map_app. Qed.

Lemma not_scroll_scrolled (t : list Event) : forallb not_scroll t = true -> scrolled t = [].
Proof.
  induction t as [|ev t IH]; [reflexivity |].
  cbn [forallb]. intros H. apply andb_true_iff in H. destruct H as [Hev Ht].
  change (scrolled (ev :: t)) with (scrolled_of ev ++ scrolled t).
  rewrite (IH Ht). unfold not_scroll in Hev.
  destruct (scrolled_of ev); [reflexivity | discriminate Hev].
Qed.

Lemma safe_find_not_scroll root l default :
  respects (@adds_only W not_scroll) (safe_find root l default).
Proof.
  unfold safe_find.
  generalize (match l with Str x => [x] | Lst x => x end). intros locators.
  induction locators as [|locator rest IH]; cbn [safe_find_for].
  - trace_frame.
  - unfold safe_find_try, find_by_selector. cbv zeta. trace_frame.
Qed.

Lemma read_job_data_not_scroll pane : respects (@adds_only W not_scroll) (read_job_data pane).
Proof.
  unfold read_job_data.
  repeat (apply respects_bind;
          [apply adds_only_trans | apply safe_find_not_scroll | intros ?]).
  apply respects_ret. apply adds_only_refl.
Qed.

Lemma close_any_modal_not_scroll : respects (@adds_only W not_scroll) close_any_modal.
Proof.
  unfold close_any_modal.
  apply respects_try_except; [apply adds_only_trans | | trace_frame].
  induction close_selectors as [|locator rest IH]; cbn [close_any_modal_for].
  - trace_frame.
  - unfold close_try. trace_frame.
Qed.



Lemma try_except_ret_session A (m : M W A) (a0 : A) (s : Session W) r s' :
  try_except m any_exception (ret a0) s = (r, s') -> exists r0, m s = (r0, s').
Proof.
  unfold try_except. destruct (m s) as [[a|e] s1]; cbn; intros H; inversion H; eauto.
Qed.

(** A computation that begins with the call [c] and goes on with allowed
    events only. *)
Lemma begins_with_only allowed A B (c : Call A) (k : A -> M W B) (s : Session W) r s' :
  (forall a, respects (adds_only allowed) (k a)) ->
  bind (perform c) k s = (r, s') ->
  exists t, trace s' = trace s ++ Called c :: t /\ forallb allowed t = true.
Proof.
  intros Hk. unfold bind.
  destruct (perform c s) as [[a|e] s1] eqn:Hc; intros H;
    apply perform_trace in Hc; destruct Hc as [Hc _].
  - apply Hk in H. destruct H as (t & Ht & Hall).
    exists t. rewrite Ht, Hc, <- app_assoc. auto.
  - inversion H. subst. exists []. auto.
Qed.

(** What one pass of the [for] adds to the trace: nothing at the target,
    and below it one scroll, to the card of the pass. *)
Lemma card_pass_trace num_jobs jobs card (s : Session W) r s' :
  card_pass num_jobs jobs card s = (r, s') ->
  exists t,
    trace s' = trace s ++ t /\
    (((num_jobs <= len jobs)%Z /\ t = [] /\ r = Ok (Break, jobs)) \/
     ((len jobs < num_jobs)%Z /\ scrolled t = [card])).
Proof.
  unfold card_pass. destruct (num_jobs <=? len jobs)%Z eqn:Htarget.
  - intros H. inversion H. subst. exists []. rewrite app_nil_r.
    apply Z.leb_le in Htarget. auto.
  - apply Z.leb_gt in Htarget. intros H.
    destruct (close_any_modal_returns s) as [s1 Hmodal].
    unfold bind at 1 in H. rewrite Hmodal in H.
    apply close_any_modal_not_scroll in Hmodal. destruct Hmodal as (t1 & Ht1 & Hall1).
    unfold bind at 1 in H.
    match type of H with
    | context [try_except ?m any_exception (ret false) s1] =>
        destruct (try_except m any_exception (ret false) s1) as [[clicked|e] s2] eqn:Htry
    end.
    + assert (Hscroll : exists t2, trace s2 = trace s1
                                   ++ Called (ExecuteScript scroll_into_view [card]) :: t2
                                   /\ forallb not_scroll t2 = true).
      { apply try_except_ret_session in Htry. destruct Htry as [r0 Hm].
        eapply (begins_with_only (allowed := not_scroll)) in Hm; [exact Hm |].
        intros ?. trace_frame. }
      destruct Hscroll as (t2 & Ht2 & Hall2).
      assert (Hrest : exists t3, trace s' = trace s2 ++ t3 /\ forallb not_scroll t3 = true).
      { revert H. generalize s2 r s'.
        change (respects (adds_only not_scroll)
                  (if negb clicked then ret (Next, jobs) else
                   bind (try_except
                           (bind (perform (UntilPresence 8 CSS_SELECTOR detail_selector))
                                 (fun detail_pane => ret (Some detail_pane)))
                           is_TimeoutException (ret None))
                        (fun found =>
                           match found with
                           | None => ret (Next, jobs)
                           | Some detail_pane =>
                               bind (read_job_data detail_pane)
                                    (fun job_data => ret (Next, jobs ++ [job_data]))
                           end))).
        trace_frame; apply read_job_data_not_scroll. }
      destruct Hrest as (t3 & Ht3 & Hall3).
      exists (t1 ++ Called (ExecuteScript scroll_into_view [card]) :: t2 ++ t3).
      split.
      * rewrite Ht3, Ht2, Ht1, <- !app_assoc. reflexivity.
      * right. split; [exact Htarget |].
        rewrite scrolled_app, (not_scroll_scrolled _ Hall1).
        cbn [app]. change (Called (ExecuteScript scroll_into_view [card]) :: t2 ++ t3)
          with ([Called (ExecuteScript scroll_into_view [card])] ++ (t2 ++ t3)).
        rewrite !scrolled_app, (not_scroll_scrolled _ Hall2), (not_scroll_scrolled _ Hall3).
        reflexivity.
    + exfalso.
      match type of Htry with
      | try_except ?m _ _ _ = _ =>
          destruct (try_except_any_returns m false s1) as (b & s3 & Hret)
      end.
      rewrite Hret in Htry. discriminate Htry.
Qed.

(** The [for] loop: the cards scrolled to are an initial part of the list
    it was given, in order, and each record added comes from one of them. *)
Lemma dispatch_trace num_jobs cards : forall jobs (s : Session W) r s',
  dispatch num_jobs cards jobs s = (r, s') ->
  exists t rest,
    trace s' = trace s ++ t /\
    cards = scrolled t ++ rest /\
    forall jobs', r = Ok jobs' ->
      exists added, jobs' = jobs ++ added /\ List.length added <= List.length (scrolled t).
Proof.
  induction cards as [|card more_cards IH]; intros jobs s r s' H; cbn [dispatch] in H.
  - inversion H. subst. exists [], []. rewrite app_nil_r.
    split; [reflexivity |]. split; [reflexivity |].
    intros jobs' Hj. inversion Hj. subst. exists []. rewrite app_nil_r. auto.
  - unfold bind in H.
    destruct (card_pass num_jobs jobs card s) as [[[f jobs1]|e] s1] eqn:Hpass.
    + pose proof (card_pass_trace _ _ _ _ Hpass) as (t1 & Ht1 & Hcase).
      pose proof (card_pass_result _ _ _ _ Hpass) as Hres.
      destruct Hcase as [(Hat & -> & Heq) | (Hbelow & Hs1)].
      * inversion Heq. subst f jobs1. inversion H. subst.
        exists [], (card :: more_cards). split; [exact Ht1 |]. split; [reflexivity |].
        intros jobs' Hj. inversion Hj. subst. exists []. rewrite app_nil_r. auto.
      * destruct Hres as [(_ & _ & _ & Hge) | (-> & _ & Hjobs)]; [lia |].
        apply IH in H. destruct H as (t2 & rest & Ht2 & Hcards & Hadded).
        exists (t1 ++ t2), rest.
        split; [rewrite Ht2, Ht1, app_assoc; reflexivity |].
        split; [rewrite scrolled_app, Hs1, Hcards; reflexivity |].
        intros jobs' Hj. destruct (Hadded jobs' Hj) as (added & Hjobs' & Hlen).
        rewrite scrolled_app, Hs1. cbn [app List.length].
        destruct Hjobs as [-> | [job ->]].
        -- exists added. split; [exact Hjobs' | lia].
        -- exists (job :: added). rewrite Hjobs', <- app_assoc.
           split; [reflexivity | cbn; lia].
    + inversion H. subst.
      pose proof (card_pass_trace _ _ _ _ Hpass) as (t1 & Ht1 & Hcase).
      destruct Hcase as [(_ & _ & Heq) | (_ & Hs1)]; [discriminate Heq |].
      exists t1, more_cards. split; [exact Ht1 |].
      split; [rewrite Hs1; reflexivity |].
      intros jobs' Hj. discriminate Hj.
Qed.

End Card_facts.

(** X11. The [for] loop goes through the cards in order and touches each
    at most once: whatever its outcome, the cards it scrolled into view
    are an initial part of the list it was given, in the order of the
    list; when it returns, the records are those it began with followed by
    the new ones, and there are no more new records than cards scrolled
    to. *)
Theorem dispatch_visits_cards_in_order :
  forall (W : Type) (driver : WebDriver W) (num_jobs : Z) (new_job_cards : list WebElement)
         (jobs : list dict) (s : Session W) r s',
    dispatch num_jobs new_job_cards jobs s = (r, s') ->
    exists t rest,
      trace s' = trace s ++ t /\
      new_job_cards = scrolled t ++ rest /\
      forall jobs', r = Ok jobs' ->
        exists added,
          jobs' = jobs ++ added /\ List.length added <= List.length (scrolled t).
Proof.
  intros W driver num_jobs cards jobs s r s' H. eapply dispatch_trace; eauto.
Qed.


Section Card_paths.
Context {W : Type} {driver : WebDriver W}.
Variables (num_jobs : Z) (jobs : list dict) (card : WebElement).
Hypothesis below_target : (len jobs < num_jobs)%Z.

Lemma card_pass_below (s : Session W) :
  card_pass num_jobs jobs card s
  = bind close_any_modal (fun _ =>
      bind (try_except
              (bind (perform (ExecuteScript scroll_into_view [card])) (fun _ =>
               bind (sleep 400) (fun _ =>
               bind (try_except (perform (Click card)) any_exception
                       (perform (ExecuteScript "arguments[0].click();" [card]))) (fun _ =>
               bind (sleep 2000) (fun _ => ret true)))))
              any_exception (ret false))
        (fun clicked =>
           if negb clicked then ret (Next, jobs) else
           bind (try_except
                   (bind (perform (UntilPresence 8 CSS_SELECTOR detail_selector))
                         (fun detail_pane => ret (Some detail_pane)))
                   is_TimeoutException (ret None))
             (fun found =>
                match found with
                | None => ret (Next, jobs)
                | Some detail_pane =>
                    bind (read_job_data detail_pane)
                         (fun job_data => ret (Next, jobs ++ [job_data]))
                end))) s.
Proof.
  unfold card_pass. apply Z.leb_gt in below_target. rewrite below_target. reflexivity.
Qed.

(** The card is skipped when it cannot be scrolled to. *)
Lemma card_pass_scroll_fails (s s1 s2 : Session W) e :
  close_any_modal s = (Ok tt, s1) ->
  perform (ExecuteScript scroll_into_view [card]) s1 = (Raise e, s2) ->
  card_pass num_jobs jobs card s = (Ok (Next, jobs), s2).
Proof.
  intros Hmodal Hscroll. rewrite card_pass_below.
  unfold bind at 1. rewrite Hmodal.
  unfold bind at 1, try_except at 1, bind at 1. rewrite Hscroll. reflexivity.
Qed.

(** The card is skipped when neither the click nor the script works. *)
Lemma card_pass_click_fails (s s1 s2 s3 s4 : Session W) e1 e2 :
  close_any_modal s = (Ok tt, s1) ->
  perform (ExecuteScript scroll_into_view [card]) s1 = (Ok tt, s2) ->
  perform (Click card) (snd (sleep 400 s2)) = (Raise e1, s3) ->
  perform (ExecuteScript "arguments[0].click();" [card]) s3 = (Raise e2, s4) ->
  card_pass num_jobs jobs card s = (Ok (Next, jobs), s4).
Proof.
  intros Hmodal Hscroll Hclick Hscript. rewrite card_pass_below.
  unfold bind at 1. rewrite Hmodal.
  unfold bind at 1, try_except at 1, bind at 1. rewrite Hscroll.
  unfold bind at 1. cbn [sleep snd] in Hclick |- *.
  unfold bind at 1, try_except at 1. rewrite Hclick. cbn [any_exception].
  rewrite Hscript. reflexivity.
Qed.

(** After the activation, by the click or by the script, the pass is the
    wait for the detail pane and what follows it. *)
Lemma card_pass_clicked (s s1 s2 s3 : Session W) :
  close_any_modal s = (Ok tt, s1) ->
  perform (ExecuteScript scroll_into_view [card]) s1 = (Ok tt, s2) ->
  (perform (Click card) (snd (sleep 400 s2)) = (Ok tt, s3) \/
   exists e s', perform (Click card) (snd (sleep 400 s2)) = (Raise e, s') /\
                perform (ExecuteScript "arguments[0].click();" [card]) s' = (Ok tt, s3)) ->
  card_pass num_jobs jobs card s
  = bind (try_except
            (bind (perform (UntilPresence 8 CSS_SELECTOR detail_selector))
                  (fun detail_pane => ret (Some detail_pane)))
            is_TimeoutException (ret None))
      (fun found =>
         match found with
         | None => ret (Next, jobs)
         | Some detail_pane =>
             bind (read_job_data detail_pane)
                  (fun job_data => ret (Next, jobs ++ [job_data]))
         end) (snd (sleep 2000 s3)).
Proof.
  intros Hmodal Hscroll Hactivated. rewrite card_pass_below.
  unfold bind at 1. rewrite Hmodal.
  unfold bind at 1, try_except at 1, bind at 1. rewrite Hscroll.
  unfold bind at 1. cbn [sleep snd] in Hactivated |- *.
  unfold bind at 1, try_except at 1.
  destruct Hactivated as [Hclick | (e & s' & Hclick & Hscript)]; rewrite Hclick.
  - reflexivity.
  - cbn [any_exception]. rewrite Hscript. reflexivity.
Qed.

End Card_paths.

(** X13. A card that cannot be activated is skipped, not an error.
    Below the target, when the scroll to the card raises, or the click
    raises and the script that clicks in its place raises too, the pass
    ends without a record and without raising, no detail pane is waited
    for, and the [for] goes on with the next card. *)
Theorem unclickable_card_is_skipped :
  forall (W : Type) (driver : WebDriver W) (num_jobs : Z) (jobs : list dict)
         (card : WebElement) (rest : list WebElement) (s s1 : Session W),
    (len jobs < num_jobs)%Z ->
    close_any_modal s = (Ok tt, s1) ->
    (forall e s2,
        perform (ExecuteScript scroll_into_view [card]) s1 = (Raise e, s2) ->
        card_pass num_jobs jobs card s = (Ok (Next, jobs), s2) /\
        dispatch num_jobs (card :: rest) jobs s = dispatch num_jobs rest jobs s2) /\
    (forall s2 e1 s3 e2 s4,
        perform (ExecuteScript scroll_into_view [card]) s1 = (Ok tt, s2) ->
        perform (Click card) (snd (sleep 400 s2)) = (Raise e1, s3) ->
        perform (ExecuteScript "arguments[0].click();" [card]) s3 = (Raise e2, s4) ->
        card_pass num_jobs jobs card s = (Ok (Next, jobs), s4) /\
        dispatch num_jobs (card :: rest) jobs s = dispatch num_jobs rest jobs s4).
Proof.
  intros W driver num_jobs jobs card rest s s1 Hbelow Hmodal. split.
  - intros e s2 Hscroll.
    pose proof (@card_pass_scroll_fails W driver num_jobs jobs card Hbelow _ _ _ _
                  Hmodal Hscroll) as Hpass.
    split; [exact Hpass |]. cbn [dispatch]. unfold bind. rewrite Hpass. reflexivity.
  - intros s2 e1 s3 e2 s4 Hscroll Hclick Hscript.
    pose proof (@card_pass_click_fails W driver num_jobs jobs card Hbelow _ _ _ _ _ _ _
                  Hmodal Hscroll Hclick Hscript) as Hpass.
    split; [exact Hpass |]. cbn [dispatch]. unfold bind. rewrite Hpass. reflexivity.
Qed.

(** X14. A card whose detail pane opens adds exactly one record, at the
    end.  Below the target, when the card is activated, by the click or,
    the click raising, by the script in its place, and the detail pane is
    there within the wait, the pass returns the records it began with
    followed by one new record with the 14 keys. *)
Theorem activated_card_adds_one_record :
  forall (W : Type) (driver : WebDriver W) (num_jobs : Z) (jobs : list dict)
         (card : WebElement) (s s1 s2 s3 : Session W) detail_pane s4,
    (len jobs < num_jobs)%Z ->
    close_any_modal s = (Ok tt, s1) ->
    perform (ExecuteScript scroll_into_view [card]) s1 = (Ok tt, s2) ->
    (perform (Click card) (snd (sleep 400 s2)) = (Ok tt, s3) \/
     exists e s', perform (Click card) (snd (sleep 400 s2)) = (Raise e, s') /\
                  perform (ExecuteScript "arguments[0].click();" [card]) s' = (Ok tt, s3)) ->
    perform (UntilPresence 8 CSS_SELECTOR detail_selector) (snd (sleep 2000 s3))
    = (Ok detail_pane, s4) ->
    exists job_data s',
      card_pass num_jobs jobs card s = (Ok (Next, jobs ++ [job_data]), s') /\
      read_job_data detail_pane s4 = (Ok job_data, s') /\
      map fst job_data = job_columns.
Proof.
  intros W driver num_jobs jobs card s s1 s2 s3 pane s4 Hbelow Hmodal Hscroll Hact Hwait.
  destruct (read_job_data_returns pane s4) as (job & s' & Hread).
  exists job, s'. split; [| split; [exact Hread |]].
  - rewrite (@card_pass_clicked W driver num_jobs jobs card Hbelow _ _ _ _
               Hmodal Hscroll Hact).
    unfold bind at 1, try_except, bind at 1. rewrite Hwait. cbn [ret].
    unfold bind. rewrite Hread. reflexivity.
  - apply read_job_data_shape in Hread. apply Hread.
Qed.

(** X15. The wait for the detail pane: a timeout skips the card, any
    other exception ends the run.  Below the target, the card activated:
    when the wait raises [TimeoutException] the pass ends without a record
    and the [for] goes on with the next card; when it raises anything
    else, the pass raises it and so does the [for], whatever cards are
    left. *)
Theorem detail_pane_wait_outcomes :
  forall (W : Type) (driver : WebDriver W) (num_jobs : Z) (jobs : list dict)
         (card : WebElement) (rest : list WebElement) (s s1 s2 s3 : Session W) e s4,
    (len jobs < num_jobs)%Z ->
    close_any_modal s = (Ok tt, s1) ->
    perform (ExecuteScript scroll_into_view [card]) s1 = (Ok tt, s2) ->
    (perform (Click card) (snd (sleep 400 s2)) = (Ok tt, s3) \/
     exists e' s', perform (Click card) (snd (sleep 400 s2)) = (Raise e', s') /\
                   perform (ExecuteScript "arguments[0].click();" [card]) s' = (Ok tt, s3)) ->
    perform (UntilPresence 8 CSS_SELECTOR detail_selector) (snd (sleep 2000 s3))
    = (Raise e, s4) ->
    (e = TimeoutException ->
     card_pass num_jobs jobs card s = (Ok (Next, jobs), s4) /\
     dispatch num_jobs (card :: rest) jobs s = dispatch num_jobs rest jobs s4) /\
    (e <> TimeoutException ->
     card_pass num_jobs jobs card s = (Raise e, s4) /\
     dispatch num_jobs (card :: rest) jobs s = (Raise e, s4)).
Proof.
  intros W driver num_jobs jobs card rest s s1 s2 s3 e s4 Hbelow Hmodal Hscroll Hact Hwait.
  pose proof (@card_pass_clicked W driver num_jobs jobs card Hbelow _ _ _ _
                Hmodal Hscroll Hact) as Hpass.
  split; intros He.
  - subst e.
    assert (Hskip : card_pass num_jobs jobs card s = (Ok (Next, jobs), s4)).
    { rewrite Hpass. unfold bind at 1, try_except, bind at 1. rewrite Hwait. reflexivity. }
    split; [exact Hskip |]. cbn [dispatch]. unfold bind. rewrite Hskip. reflexivity.
  - assert (Hno : is_TimeoutException e = false)
      by (destruct e; try reflexivity; contradiction He; reflexivity).
    assert (Hraise : card_pass num_jobs jobs card s = (Raise e, s4)).
    { rewrite Hpass. unfold bind at 1, try_except, bind at 1. rewrite Hwait, Hno.
      reflexivity. }
    split; [exact Hraise |]. cbn [dispatch]. unfold bind. rewrite Hraise. reflexivity.
Qed.

(** ** Going on *)

(** X16. A 'Show more jobs' button that is not usable is not clicked.
    After the scroll to the bottom and the pause: when the button is not
    found, or is found but not enabled (then its visibility is not even
    asked for), or is enabled but not displayed, or the click on it
    raises, the attempt ends there with [False], nothing raised, and the
    pass goes on to look for the 'See more jobs' link. *)
Theorem unusable_button_is_not_clicked :
  forall (W : Type) (driver : WebDriver W) (s s1 : Session W),
    perform (ExecuteScript "window.scrollTo(0, document.body.scrollHeight);" []) s
    = (Ok tt, s1) ->
    (forall e s2,
        perform (FindElement None CSS_SELECTOR "button[data-test='load-more']")
                (snd (sleep 2000 s1)) = (Raise e, s2) ->
        show_more s = (Ok false, s2)) /\
    (forall btn s2,
        perform (FindElement None CSS_SELECTOR "button[data-test='load-more']")
                (snd (sleep 2000 s1)) = (Ok btn, s2) ->
        (forall s3, perform (IsEnabled btn) s2 = (Ok false, s3) ->
                    show_more s = (Ok false, s3)) /\
        (forall s3 s4, perform (IsEnabled btn) s2 = (Ok true, s3) ->
                       perform (IsDisplayed btn) s3 = (Ok false, s4) ->
                       show_more s = (Ok false, s4)) /\
        (forall s3 s4 e s5, perform (IsEnabled btn) s2 = (Ok true, s3) ->
                            perform (IsDisplayed btn) s3 = (Ok true, s4) ->
                            perform (Click btn) s4 = (Raise e, s5) ->
                            show_more s = (Ok false, s5))).
Proof.
  intros W driver s s1 Hscroll. split.
  - intros e s2 Hfind. unfold show_more, try_except, bind. rewrite Hscroll.
    cbn [sleep snd] in Hfind |- *. rewrite Hfind. reflexivity.
  - intros btn s2 Hfind. split; [| split].
    + intros s3 Henabled. unfold show_more, try_except, bind. rewrite Hscroll.
      cbn [sleep snd] in Hfind |- *. rewrite Hfind, Henabled. reflexivity.
    + intros s3 s4 Henabled Hshown. unfold show_more, try_except, bind. rewrite Hscroll.
      cbn [sleep snd] in Hfind |- *. rewrite Hfind, Henabled, Hshown. reflexivity.
    + intros s3 s4 e s5 Henabled Hshown Hclick.
      unfold show_more, try_except, bind. rewrite Hscroll.
      cbn [sleep snd] in Hfind |- *. rewrite Hfind, Henabled, Hshown, Hclick. reflexivity.
Qed.

(** X17. A 'See more jobs' link that leads nowhere ends the run quietly.
    The 'Show more jobs' attempt having failed and the link being found:
    when its [href] is missing or empty no page is loaded and the pass
    leaves the loop at line 302; when loading the page raises, the pass
    leaves the loop at line 293 or 297.  In each case nothing is raised
    and the loop variables, the records among them, are as they were. *)
Theorem link_without_target_ends_the_run :
  forall (W : Type) (driver : WebDriver W) (all_job_cards : list WebElement)
         (st : LoopState) (s s1 : Session W) link s2,
    show_more s = (Ok false, s1) ->
    perform (FindElement None XPATH see_more_xpath) s1 = (Ok link, s2) ->
    (forall new_url s3,
        perform (GetAttribute link "href") s2 = (Ok new_url, s3) ->
        new_url = None \/ new_url = Some "" ->
        continuation all_job_cards st s = (Ok (Stop NoContinuation st), s3)) /\
    (forall url s3 e s4,
        perform (GetAttribute link "href") s2 = (Ok (Some url), s3) ->
        url <> "" ->
        perform (Get url) s3 = (Raise e, s4) ->
        continuation all_job_cards st s
        = (Ok (Stop (if is_NoSuchElementException e then NoLink else NavigationError) st), s4)).
Proof.
  intros W driver cards st s s1 link s2 Hshow Hlink. split.
  - intros new_url s3 Hurl Hnone.
    unfold continuation, bind at 1. rewrite Hshow.
    unfold try_except, see_more_try, bind. rewrite Hlink, Hurl.
    destruct Hnone as [-> | ->]; reflexivity.
  - intros url s3 e s4 Hurl Hne Hget.
    unfold continuation, bind at 1. rewrite Hshow.
    unfold try_except, see_more_try, bind. rewrite Hlink, Hurl.
    destruct url as [|c url]; [contradiction Hne; reflexivity |].
    cbn [truthy]. rewrite Hget.
    destruct (is_NoSuchElementException e); reflexivity.
Qed.

(** ** Starting the browser *)

Section Launch_facts.
Context {W : Type} {driver : WebDriver W}.

Lemma build_options_returns (s : Session W) :
  exists options s1, build_options s = (Ok options, s1).
Proof.
  unfold build_options, bind, try_except, ret.
  destruct (perform Getcwd s) as [[cwd|e] s1]; cbn; eexists; eexists; reflexivity.
Qed.

End Launch_facts.

(** X18. The browser is started a second time, without the driver
    service, when the first start fails; when the second fails too the run
    is over.  [build_options] always returns; with its options, when
    installing the driver raises or the start with the service raises, and
    the start without it raises [e], then [open_search] raises [e] right
    there, no page loaded, and [get_jobs] raises [e], whatever line 234
    does. *)
Theorem failed_launch_aborts_the_run :
  forall (W : Type) (driver : WebDriver W) (to_csv : list dict -> M W unit)
         (keyword : string) (num_jobs : Z) (headless verbose : bool) (fuel : nat)
         (s : Session W),
  exists options s1,
    build_options s = (Ok options, s1) /\
    forall s2 e s3,
      ((exists e0, perform InstallChromeDriver s1 = (Raise e0, s2)) \/
       (exists service s' e0,
           perform InstallChromeDriver s1 = (Ok service, s') /\
           perform (Chrome (Some service) options) s' = (Raise e0, s2))) ->
      perform (Chrome None options) s2 = (Raise e, s3) ->
      open_search keyword headless s = (Raise e, s3) /\
      get_jobs_with to_csv keyword num_jobs headless verbose fuel s = (Raise e, s3).
Proof.
  intros W driver to_csv keyword num_jobs headless verbose fuel s.
  destruct (build_options_returns s) as (options & s1 & Hoptions).
  exists options, s1. split; [exact Hoptions |].
  intros s2 e s3 Hfirst Hsecond.
  assert (Hopen : open_search keyword headless s = (Raise e, s3)).
  { unfold open_search. cbv zeta. unfold bind at 1. rewrite Hoptions.
    unfold bind at 1, try_except, bind at 1.
    destruct Hfirst as [[e0 Hinstall] | (service & s' & e0 & Hinstall & Hstart)];
      rewrite Hinstall; [| rewrite Hstart]; cbn [any_exception]; rewrite Hsecond;
      reflexivity. }
  split; [exact Hopen |].
  unfold get_jobs_with, collect, bind. rewrite Hopen. reflexivity.
Qed.

(** ** The data frame *)




Section Keyed_facts.
Context {W : Type} {driver : WebDriver W}.




End Keyed_facts.


(** ** The further properties at work on the simulated sites *)

(** X5 on the page with 5 cards and a button, line 234 writing the data
    frame: the loop ends, and not by the page limit. *)
Lemma page_limit_witness :
  exists why st' s',
    collect frame_to_csv "data scientist" 10 false true 3 (fresh five_then_ten)
    = (Ok (Some (why, st')), s') /\
    why <> PageLimit /\ page_num st' = 1%Z.
Proof.
  pose (run := collect frame_to_csv "data scientist" 10 false true 3 (fresh five_then_ten)).
  assert (Hrun : exists why st', run = (Ok (Some (why, st')), snd run))
    by (eexists; eexists; vm_compute; reflexivity).
  destruct Hrun as (why & st' & Hrun). exists why, st', (snd run).
  split; [exact Hrun |].
  exact (@page_limit_never_ends_a_run Site site_driver frame_to_csv "data scientist" 10
           false true 3 (fresh five_then_ten) why st' (snd run) Hrun).
Defined.

(** X6 on the same run, that ends at the target with 10 records, and on
    the page without listings, where the run as written ends with fewer
    than the 5 asked for. *)
Lemma exit_tells_the_count_witness :
  (0 <= 10)%Z /\
  (exists st' s',
      collect frame_to_csv "data scientist" 10 false true 3 (fresh five_then_ten)
      = (Ok (Some (TargetReached, st')), s') /\
      len (jobs st') = 10%Z) /\
  (0 <= 5)%Z /\
  (exists st' s',
      collect list_to_csv "data scientist" 5 false true 1 (fresh no_listings)
      = (Ok (Some (NoListings, st')), s') /\
      (len (jobs st') < 5)%Z).
Proof.
  assert (H10 : (0 <= 10)%Z) by discriminate.
  assert (H5 : (0 <= 5)%Z) by discriminate.
  split; [exact H10 |]. split; [| split; [exact H5 |]].
  - pose (run := collect frame_to_csv "data scientist" 10 false true 3
                   (fresh five_then_ten)).
    assert (Hrun : exists st', run = (Ok (Some (TargetReached, st')), snd run))
      by (eexists; vm_compute; reflexivity).
    destruct Hrun as (st' & Hrun). exists st', (snd run). split; [exact Hrun |].
    exact (proj1 (@exit_tells_the_count Site site_driver frame_to_csv "data scientist" 10
                    false true 3 (fresh five_then_ten) TargetReached st' (snd run)
                    H10 Hrun) eq_refl).
  - pose (run := collect list_to_csv "data scientist" 5 false true 1 (fresh no_listings)).
    assert (Hrun : exists st', run = (Ok (Some (NoListings, st')), snd run))
      by (eexists; vm_compute; reflexivity).
    destruct Hrun as (st' & Hrun). exists st', (snd run). split; [exact Hrun |].
    apply (proj2 (@exit_tells_the_count Site site_driver list_to_csv "data scientist" 5
                    false true 1 (fresh no_listings) NoListings st' (snd run) H5 Hrun)).
    discriminate.
Defined.

(** X7 on a pass that starts with one record and a page with one card. *)
Lemma records_are_only_appended_witness :
  (exists r s' added,
      loop_body frame_to_csv 5 (mkLoopState [[("Job Title", "kept")]] 1 0) (fresh one_card)
      = (Ok r, s') /\
      jobs (pass_state r) = [[("Job Title", "kept")]] ++ added) /\
  (exists why st' s' added,
      while_loop frame_to_csv 10 3 (mkLoopState [[("Job Title", "kept")]] 1 0)
        (fresh five_then_ten)
      = (Ok (Some (why, st')), s') /\
      jobs st' = [[("Job Title", "kept")]] ++ added).
Proof.
  destruct (@records_are_only_appended Site site_driver frame_to_csv 5) as (Hpass & _).
  destruct (@records_are_only_appended Site site_driver frame_to_csv 10) as (_ & Hloop).
  split.
  - pose (run := loop_body frame_to_csv 5 (mkLoopState [[("Job Title", "kept")]] 1 0)
                   (fresh one_card)).
    assert (Hrun : exists r, run = (Ok r, snd run)) by (eexists; vm_compute; reflexivity).
    destruct Hrun as (r & Hrun).
    destruct (Hpass _ _ _ _ Hrun) as (added & Hadded).
    exists r, (snd run), added. split; [exact Hrun | exact Hadded].
  - pose (run := while_loop frame_to_csv 10 3 (mkLoopState [[("Job Title", "kept")]] 1 0)
                   (fresh five_then_ten)).
    assert (Hrun : exists why st', run = (Ok (Some (why, st')), snd run))
      by (eexists; eexists; vm_compute; reflexivity).
    destruct Hrun as (why & st' & Hrun).
    destruct (Hloop _ _ _ _ _ _ Hrun) as (added & Hadded).
    exists why, st', (snd run), added. split; [exact Hrun | exact Hadded].
Defined.

(** X8 on the page without listings: the run returns, with the empty
    frame. *)
Lemma get_jobs_makes_one_pass_witness :
  exists s',
    get_jobs "data scientist" 5 false true 5 (fresh no_listings)
    = (Ok (Some (mkDataFrame [] [])), s').
Proof.
  pose (run := get_jobs "data scientist" 5 false true 5 (fresh no_listings)).
  assert (Hrun : exists r, run = (Ok r, snd run)) by (eexists; vm_compute; reflexivity).
  destruct Hrun as (r & Hrun). exists (snd run).
  destruct (@get_jobs_makes_one_pass Site site_driver "data scientist" 5 false true 4
              (fresh no_listings)) as (_ & Hempty).
  rewrite <- (Hempty r (snd run) Hrun). exact Hrun.
Defined.

(** X9 on a page whose cards are gone when it is queried. *)
Lemma no_cards_witness :
  exists s2,
    loop_body list_to_csv 5 initial_state (fresh (mkFlaky none_fail false false true one_card))
    = (Ok (Stop NoCards initial_state), s2) /\
    while_loop list_to_csv 5 1 initial_state
      (fresh (mkFlaky none_fail false false true one_card))
    = (Ok (Some (NoCards, initial_state)), s2).
Proof.
  pose (s := fresh (mkFlaky none_fail false false true one_card)).
  pose (s0 := snd (perform (UntilPresence 10 CSS_SELECTOR listing_selector) s)).
  pose (s1 := snd (perform (FindElements CSS_SELECTOR "li[data-test='jobListing']") s0)).
  pose (s2 := snd (perform (FindElements CSS_SELECTOR
                              "li.JobsList_jobListItem__wjThv, div[data-test='job-listing']")
                           s1)).
  assert (Hwait : perform (UntilPresence 10 CSS_SELECTOR listing_selector) s = (Ok 1, s0))
    by (vm_compute; reflexivity).
  assert (Hfirst : perform (FindElements CSS_SELECTOR "li[data-test='jobListing']") s0
                   = (Ok [], s1)) by (vm_compute; reflexivity).
  assert (Hsecond : perform (FindElements CSS_SELECTOR
                               "li.JobsList_jobListItem__wjThv, div[data-test='job-listing']")
                            s1 = (Ok [], s2)) by (vm_compute; reflexivity).
  destruct (@no_cards_ends_the_run Flaky flaky_driver list_to_csv 5 initial_state
              s 1 s0 s1 s2 Hwait Hfirst Hsecond) as (Hbody & Hloop).
  exists s2. split; [exact Hbody | exact (Hloop eq_refl 0)].
Defined.

(** X10 on a session whose wait for listings breaks down. *)
Lemma scan_errors_witness :
  exists s1,
    is_TimeoutException WebDriverException = false /\
    (0 < 5)%Z /\
    get_jobs "data scientist" 5 false true 1
      (fresh (flaky (wait_raises WebDriverException listing_selector) one_card))
    = (Raise WebDriverException, s1).
Proof.
  pose (s := fresh (flaky (wait_raises WebDriverException listing_selector) one_card)).
  pose (s0 := snd (open_search "data scientist" false s)).
  pose (s1 := snd (perform (UntilPresence 10 CSS_SELECTOR listing_selector) s0)).
  assert (Hopen : open_search "data scientist" false s = (Ok false, s0))
    by (vm_compute; reflexivity).
  assert (Hwait : perform (UntilPresence 10 CSS_SELECTOR listing_selector) s0
                  = (Raise WebDriverException, s1)) by (vm_compute; reflexivity).
  assert (Hpos : (0 < 5)%Z) by reflexivity.
  destruct (@scan_errors_abort_the_run Flaky flaky_driver list_to_csv 5)
    as (Hbody & _ & Hrun).
  exists s1. split; [reflexivity |]. split; [exact Hpos |].
  exact (Hrun "data scientist" false true 0 s false s0 WebDriverException s1 Hpos Hopen
           (Hbody initial_state s0 WebDriverException s1 Hwait eq_refl)).
Defined.

(** X11 on three cards with a target of 2: the first two are scrolled
    to, in order, the third is left. *)
Lemma dispatch_order_witness :
  exists jobs' s' t rest,
    dispatch 2 [1; 2; 3] [] (fresh five_then_ten) = (Ok jobs', s') /\
    trace s' = trace (fresh five_then_ten) ++ t /\
    [1; 2; 3] = scrolled t ++ rest /\
    exists added, jobs' = [] ++ added /\ List.length added <= List.length (scrolled t).
Proof.
  pose (run := dispatch 2 [1; 2; 3] [] (fresh five_then_ten)).
  assert (Hrun : exists jobs', run = (Ok jobs', snd run))
    by (eexists; vm_compute; reflexivity).
  destruct Hrun as (jobs' & Hrun).
  destruct (@dispatch_visits_cards_in_order Site site_driver 2 [1; 2; 3] []
              (fresh five_then_ten) (Ok jobs') (snd run) Hrun)
    as (t & rest & Ht & Hcards & Hadded).
  exists jobs', (snd run), t, rest.
  split; [exact Hrun |]. split; [exact Ht |]. split; [exact Hcards |].
  exact (Hadded jobs' eq_refl).
Defined.


(** X13 on a session that runs no script, and on one whose cards can be
    neither clicked nor activated by script: the card is skipped. *)
Lemma unclickable_card_witness :
  (len (@nil dict) < 1)%Z /\
  (exists s2,
      card_pass 1 [] 1 (fresh (flaky scripts_fail one_card)) = (Ok (Next, []), s2) /\
      dispatch 1 [1] [] (fresh (flaky scripts_fail one_card)) = dispatch 1 [] [] s2) /\
  (exists s4,
      card_pass 1 [] 1 (fresh (flaky cards_inert one_card)) = (Ok (Next, []), s4) /\
      dispatch 1 [1] [] (fresh (flaky cards_inert one_card)) = dispatch 1 [] [] s4).
Proof.
  assert (Hbelow : (len (@nil dict) < 1)%Z) by reflexivity.
  split; [exact Hbelow |]. split.
  - pose (s := fresh (flaky scripts_fail one_card)).
    pose (s1 := snd (close_any_modal s)).
    pose (s2 := snd (perform (ExecuteScript scroll_into_view [1]) s1)).
    assert (Hmodal : close_any_modal s = (Ok tt, s1)) by (vm_compute; reflexivity).
    assert (Hscroll : perform (ExecuteScript scroll_into_view [1]) s1
                      = (Raise WebDriverException, s2)) by (vm_compute; reflexivity).
    destruct (@unclickable_card_is_skipped Flaky flaky_driver 1 [] 1 [] s s1 Hbelow Hmodal)
      as (Hfirst & _).
    exists s2. exact (Hfirst WebDriverException s2 Hscroll).
  - pose (s := fresh (flaky cards_inert one_card)).
    pose (s1 := snd (close_any_modal s)).
    pose (s2 := snd (perform (ExecuteScript scroll_into_view [1]) s1)).
    pose (s3 := snd (perform (Click 1) (snd (sleep 400 s2)))).
    pose (s4 := snd (perform (ExecuteScript "arguments[0].click();" [1]) s3)).
    assert (Hmodal : close_any_modal s = (Ok tt, s1)) by (vm_compute; reflexivity).
    assert (Hscroll : perform (ExecuteScript scroll_into_view [1]) s1 = (Ok tt, s2))
      by (vm_compute; reflexivity).
    assert (Hclick : perform (Click 1) (snd (sleep 400 s2))
                     = (Raise ElementClickInterceptedException, s3))
      by (vm_compute; reflexivity).
    assert (Hscript : perform (ExecuteScript "arguments[0].click();" [1]) s3
                      = (Raise WebDriverException, s4)) by (vm_compute; reflexivity).
    destruct (@unclickable_card_is_skipped Flaky flaky_driver 1 [] 1 [] s s1 Hbelow Hmodal)
      as (_ & Hsecond).
    exists s4.
    exact (Hsecond s2 ElementClickInterceptedException s3 WebDriverException s4
             Hscroll Hclick Hscript).
Defined.

(** X14 on a session where the click on a card is intercepted and the
    script clicks in its place: one record is added. *)
Lemma activated_card_witness :
  (len (@nil dict) < 1)%Z /\
  exists job_data s',
    card_pass 1 [] 1 (fresh (flaky card_clicks_fail one_card))
    = (Ok (Next, [] ++ [job_data]), s') /\
    map fst job_data = job_columns.
Proof.
  assert (Hbelow : (len (@nil dict) < 1)%Z) by reflexivity.
  split; [exact Hbelow |].
  pose (s := fresh (flaky card_clicks_fail one_card)).
  pose (s1 := snd (close_any_modal s)).
  pose (s2 := snd (perform (ExecuteScript scroll_into_view [1]) s1)).
  pose (sc := snd (perform (Click 1) (snd (sleep 400 s2)))).
  pose (s3 := snd (perform (ExecuteScript "arguments[0].click();" [1]) sc)).
  pose (s4 := snd (perform (UntilPresence 8 CSS_SELECTOR detail_selector)
                     (snd (sleep 2000 s3)))).
  assert (Hmodal : close_any_modal s = (Ok tt, s1)) by (vm_compute; reflexivity).
  assert (Hscroll : perform (ExecuteScript scroll_into_view [1]) s1 = (Ok tt, s2))
    by (vm_compute; reflexivity).
  assert (Hclick : perform (Click 1) (snd (sleep 400 s2))
                   = (Raise ElementClickInterceptedException, sc))
    by (vm_compute; reflexivity).
  assert (Hscript : perform (ExecuteScript "arguments[0].click();" [1]) sc = (Ok tt, s3))
    by (vm_compute; reflexivity).
  assert (Hwait : perform (UntilPresence 8 CSS_SELECTOR detail_selector)
                          (snd (sleep 2000 s3)) = (Ok 1000, s4))
    by (vm_compute; reflexivity).
  destruct (@activated_card_adds_one_record Flaky flaky_driver 1 [] 1 s s1 s2 s3 1000 s4
              Hbelow Hmodal Hscroll
              (or_intror (ex_intro _ ElementClickInterceptedException
                            (ex_intro _ sc (conj Hclick Hscript))))
              Hwait) as (job & s' & Hpass & _ & Hkeys).
  exists job, s'. split; [exact Hpass | exact Hkeys].
Defined.

(** X15 on a session whose wait for the detail pane times out, and on
    one where it breaks down. *)
Lemma detail_pane_wait_witness :
  (len (@nil dict) < 1)%Z /\
  (exists s4,
      card_pass 1 [] 1 (fresh (flaky (wait_raises TimeoutException detail_selector) one_card))
      = (Ok (Next, []), s4)) /\
  (exists s4,
      WebDriverException <> TimeoutException /\
      dispatch 1 [1; 2] []
        (fresh (flaky (wait_raises WebDriverException detail_selector) one_card))
      = (Raise WebDriverException, s4)).
Proof.
  assert (Hbelow : (len (@nil dict) < 1)%Z) by reflexivity.
  split; [exact Hbelow |]. split.
  - pose (s := fresh (flaky (wait_raises TimeoutException detail_selector) one_card)).
    pose (s1 := snd (close_any_modal s)).
    pose (s2 := snd (perform (ExecuteScript scroll_into_view [1]) s1)).
    pose (s3 := snd (perform (Click 1) (snd (sleep 400 s2)))).
    pose (s4 := snd (perform (UntilPresence 8 CSS_SELECTOR detail_selector)
                       (snd (sleep 2000 s3)))).
    assert (Hmodal : close_any_modal s = (Ok tt, s1)) by (vm_compute; reflexivity).
    assert (Hscroll : perform (ExecuteScript scroll_into_view [1]) s1 = (Ok tt, s2))
      by (vm_compute; reflexivity).
    assert (Hclick : perform (Click 1) (snd (sleep 400 s2)) = (Ok tt, s3))
      by (vm_compute; reflexivity).
    assert (Hwait : perform (UntilPresence 8 CSS_SELECTOR detail_selector)
                            (snd (sleep 2000 s3)) = (Raise TimeoutException, s4))
      by (vm_compute; reflexivity).
    destruct (@detail_pane_wait_outcomes Flaky flaky_driver 1 [] 1 [] s s1 s2 s3
                TimeoutException s4 Hbelow Hmodal Hscroll (or_introl Hclick) Hwait)
      as (Htimeout & _).
    exists s4. exact (proj1 (Htimeout eq_refl)).
  - pose (s := fresh (flaky (wait_raises WebDriverException detail_selector) one_card)).
    pose (s1 := snd (close_any_modal s)).
    pose (s2 := snd (perform (ExecuteScript scroll_into_view [1]) s1)).
    pose (s3 := snd (perform (Click 1) (snd (sleep 400 s2)))).
    pose (s4 := snd (perform (UntilPresence 8 CSS_SELECTOR detail_selector)
                       (snd (sleep 2000 s3)))).
    assert (Hmodal : close_any_modal s = (Ok tt, s1)) by (vm_compute; reflexivity).
    assert (Hscroll : perform (ExecuteScript scroll_into_view [1]) s1 = (Ok tt, s2))
      by (vm_compute; reflexivity).
    assert (Hclick : perform (Click 1) (snd (sleep 400 s2)) = (Ok tt, s3))
      by (vm_compute; reflexivity).
    assert (Hwait : perform (UntilPresence 8 CSS_SELECTOR detail_selector)
                            (snd (sleep 2000 s3)) = (Raise WebDriverException, s4))
      by (vm_compute; reflexivity).
    assert (Hne : WebDriverException <> TimeoutException) by discriminate.
    destruct (@detail_pane_wait_outcomes Flaky flaky_driver 1 [] 1 [2] s s1 s2 s3
                WebDriverException s4 Hbelow Hmodal Hscroll (or_introl Hclick) Hwait)
      as (_ & Hother).
    exists s4. split; [exact Hne | exact (proj2 (Hother Hne))].
Defined.

(** X16 on a page without the button, with a button that is disabled,
    one that is hidden, and one whose click is intercepted. *)
Lemma unusable_button_witness :
  (exists s', show_more (fresh one_card) = (Ok false, s')) /\
  (exists s', show_more (fresh (mkFlaky none_fail true false false five_then_ten))
              = (Ok false, s') /\ more (site (world s')) = [10]) /\
  (exists s', show_more (fresh (mkFlaky none_fail false true false five_then_ten))
              = (Ok false, s') /\ more (site (world s')) = [10]) /\
  (exists s', show_more (fresh (flaky button_click_fails five_then_ten))
              = (Ok false, s') /\ more (site (world s')) = [10]).
Proof.
  split; [| split; [| split]].
  - pose (s := fresh one_card).
    pose (s1 := snd (perform (ExecuteScript
                                "window.scrollTo(0, document.body.scrollHeight);" []) s)).
    pose (s2 := snd (perform (FindElement None CSS_SELECTOR "button[data-test='load-more']")
                       (snd (sleep 2000 s1)))).
    assert (Hscroll : perform (ExecuteScript
                                 "window.scrollTo(0, document.body.scrollHeight);" []) s
                      = (Ok tt, s1)) by (vm_compute; reflexivity).
    assert (Hfind : perform (FindElement None CSS_SELECTOR "button[data-test='load-more']")
                            (snd (sleep 2000 s1)) = (Raise NoSuchElementException, s2))
      by (vm_compute; reflexivity).
    destruct (@unusable_button_is_not_clicked Site site_driver s s1 Hscroll) as (Habsent & _).
    exists s2. exact (Habsent NoSuchElementException s2 Hfind).
  - pose (s := fresh (mkFlaky none_fail true false false five_then_ten)).
    pose (s1 := snd (perform (ExecuteScript
                                "window.scrollTo(0, document.body.scrollHeight);" []) s)).
    pose (s2 := snd (perform (FindElement None CSS_SELECTOR "button[data-test='load-more']")
                       (snd (sleep 2000 s1)))).
    pose (s3 := snd (perform (IsEnabled 2000) s2)).
    assert (Hscroll : perform (ExecuteScript
                                 "window.scrollTo(0, document.body.scrollHeight);" []) s
                      = (Ok tt, s1)) by (vm_compute; reflexivity).
    assert (Hfind : perform (FindElement None CSS_SELECTOR "button[data-test='load-more']")
                            (snd (sleep 2000 s1)) = (Ok 2000, s2))
      by (vm_compute; reflexivity).
    assert (Henabled : perform (IsEnabled 2000) s2 = (Ok false, s3))
      by (vm_compute; reflexivity).
    destruct (@unusable_button_is_not_clicked Flaky flaky_driver s s1 Hscroll) as (_ & Hfound).
    destruct (Hfound 2000 s2 Hfind) as (Hdisabled & _).
    exists s3. split; [exact (Hdisabled s3 Henabled) | vm_compute; reflexivity].
  - pose (s := fresh (mkFlaky none_fail false true false five_then_ten)).
    pose (s1 := snd (perform (ExecuteScript
                                "window.scrollTo(0, document.body.scrollHeight);" []) s)).
    pose (s2 := snd (perform (FindElement None CSS_SELECTOR "button[data-test='load-more']")
                       (snd (sleep 2000 s1)))).
    pose (s3 := snd (perform (IsEnabled 2000) s2)).
    pose (s4 := snd (perform (IsDisplayed 2000) s3)).
    assert (Hscroll : perform (ExecuteScript
                                 "window.scrollTo(0, document.body.scrollHeight);" []) s
                      = (Ok tt, s1)) by (vm_compute; reflexivity).
    assert (Hfind : perform (FindElement None CSS_SELECTOR "button[data-test='load-more']")
                            (snd (sleep 2000 s1)) = (Ok 2000, s2))
      by (vm_compute; reflexivity).
    assert (Henabled : perform (IsEnabled 2000) s2 = (Ok true, s3))
      by (vm_compute; reflexivity).
    assert (Hshown : perform (IsDisplayed 2000) s3 = (Ok false, s4))
      by (vm_compute; reflexivity).
    destruct (@unusable_button_is_not_clicked Flaky flaky_driver s s1 Hscroll) as (_ & Hfound).
    destruct (Hfound 2000 s2 Hfind) as (_ & Hhidden & _).
    exists s4. split; [exact (Hhidden s3 s4 Henabled Hshown) | vm_compute; reflexivity].
  - pose (s := fresh (flaky button_click_fails five_then_ten)).
    pose (s1 := snd (perform (ExecuteScript
                                "window.scrollTo(0, document.body.scrollHeight);" []) s)).
    pose (s2 := snd (perform (FindElement None CSS_SELECTOR "button[data-test='load-more']")
                       (snd (sleep 2000 s1)))).
    pose (s3 := snd (perform (IsEnabled 2000) s2)).
    pose (s4 := snd (perform (IsDisplayed 2000) s3)).
    pose (s5 := snd (perform (Click 2000) s4)).
    assert (Hscroll : perform (ExecuteScript
                                 "window.scrollTo(0, document.body.scrollHeight);" []) s
                      = (Ok tt, s1)) by (vm_compute; reflexivity).
    assert (Hfind : perform (FindElement None CSS_SELECTOR "button[data-test='load-more']")
                            (snd (sleep 2000 s1)) = (Ok 2000, s2))
      by (vm_compute; reflexivity).
    assert (Henabled : perform (IsEnabled 2000) s2 = (Ok true, s3))
      by (vm_compute; reflexivity).
    assert (Hshown : perform (IsDisplayed 2000) s3 = (Ok true, s4))
      by (vm_compute; reflexivity).
    assert (Hclick : perform (Click 2000) s4 = (Raise ElementClickInterceptedException, s5))
      by (vm_compute; reflexivity).
    destruct (@unusable_button_is_not_clicked Flaky flaky_driver s s1 Hscroll) as (_ & Hfound).
    destruct (Hfound 2000 s2 Hfind) as (_ & _ & Hintercepted).
    exists s5. split; [| vm_compute; reflexivity].
    exact (Hintercepted s3 s4 ElementClickInterceptedException s5 Henabled Hshown Hclick).
Defined.

(** X17 on a page whose link has an empty [href], and on a session that
    can load no page. *)
Lemma link_without_target_witness :
  (exists s3,
      continuation [1; 2] (mkLoopState [] 1 0) (fresh link_without_target)
      = (Ok (Stop NoContinuation (mkLoopState [] 1 0)), s3) /\
      existsb is_get (trace s3) = false) /\
  (exists s4,
      continuation [1; 2] (mkLoopState [] 1 0) (fresh (flaky loads_fail two_cards_and_link))
      = (Ok (Stop NavigationError (mkLoopState [] 1 0)), s4)).
Proof.
  split.
  - pose (s := fresh link_without_target).
    pose (s1 := snd (show_more s)).
    pose (s2 := snd (perform (FindElement None XPATH see_more_xpath) s1)).
    pose (s3 := snd (perform (GetAttribute 2001 "href") s2)).
    assert (Hshow : show_more s = (Ok false, s1)) by (vm_compute; reflexivity).
    assert (Hlink : perform (FindElement None XPATH see_more_xpath) s1 = (Ok 2001, s2))
      by (vm_compute; reflexivity).
    assert (Hurl : perform (GetAttribute 2001 "href") s2 = (Ok (Some ""), s3))
      by (vm_compute; reflexivity).
    destruct (@link_without_target_ends_the_run Site site_driver [1; 2] (mkLoopState [] 1 0)
                s s1 2001 s2 Hshow Hlink) as (Hnone & _).
    exists s3. split; [exact (Hnone (Some "") s3 Hurl (or_intror eq_refl)) |].
    vm_compute. reflexivity.
  - pose (url := "https://www.glassdoor.com/Job/more-jobs.htm").
    pose (s := fresh (flaky loads_fail two_cards_and_link)).
    pose (s1 := snd (show_more s)).
    pose (s2 := snd (perform (FindElement None XPATH see_more_xpath) s1)).
    pose (s3 := snd (perform (GetAttribute 2001 "href") s2)).
    pose (s4 := snd (perform (Get url) s3)).
    assert (Hshow : show_more s = (Ok false, s1)) by (vm_compute; reflexivity).
    assert (Hlink : perform (FindElement None XPATH see_more_xpath) s1 = (Ok 2001, s2))
      by (vm_compute; reflexivity).
    assert (Hurl : perform (GetAttribute 2001 "href") s2 = (Ok (Some url), s3))
      by (vm_compute; reflexivity).
    assert (Hne : url <> "") by discriminate.
    assert (Hget : perform (Get url) s3 = (Raise WebDriverException, s4))
      by (vm_compute; reflexivity).
    destruct (@link_without_target_ends_the_run Flaky flaky_driver [1; 2] (mkLoopState [] 1 0)
                s s1 2001 s2 Hshow Hlink) as (_ & Hfails).
    exists s4. exact (Hfails url s3 WebDriverException s4 Hurl Hne Hget).
Defined.

(** X18 on a session that is gone: the driver cannot be installed, the
    browser cannot be started, and [get_jobs] raises. *)
Lemma failed_launch_witness :
  exists s3,
    get_jobs "data scientist" 5 false true 1 (fresh (flaky all_fail one_card))
    = (Raise WebDriverException, s3) /\
    existsb is_get (trace s3) = false.
Proof.
  pose (s := fresh (flaky all_fail one_card)).
  destruct (@failed_launch_aborts_the_run Flaky flaky_driver list_to_csv "data scientist" 5
              false true 1 s) as (options & s1 & Hoptions & Hfails).
  assert (Hs1 : (Ok options, s1) = (fst (build_options s), snd (build_options s)))
    by (rewrite <- Hoptions; destruct (build_options s); reflexivity).
  assert (Hok : exists o, fst (build_options s) = Ok o)
    by (eexists; vm_compute; reflexivity).
  destruct Hok as (o & Ho). rewrite Ho in Hs1. inversion Hs1 as [[Hopt Hsession]].
  pose (s2 := snd (perform InstallChromeDriver (snd (build_options s)))).
  pose (s3 := snd (perform (Chrome None options) s2)).
  assert (Hinstall : perform InstallChromeDriver s1 = (Raise WebDriverException, s2))
    by (rewrite Hsession; vm_compute; reflexivity).
  assert (Hstart : perform (Chrome None options) s2 = (Raise WebDriverException, s3)).
  { unfold s3. destruct (perform (Chrome None options) s2) as [r s'] eqn:E.
    cbn [snd]. f_equal.
    unfold perform in E. cbn [respond flaky_driver flaky_respond] in E.
    vm_compute in E. inversion E. reflexivity. }
  exists s3. split.
  - exact (proj2 (Hfails s2 WebDriverException s3
                    (or_introl (ex_intro _ WebDriverException Hinstall)) Hstart)).
  - subst s3 s2. rewrite Hopt. vm_compute. reflexivity.
Defined.

